(** * ChatBot-PDF (src/main.py): a shallow embedding and its properties

    The script is a Streamlit page.  Streamlit re-runs [main] from the top on
    every interaction; what survives from one run to the next is
    [st.session_state] and the files on disk.  The embedding therefore has

    - a [World]: the working directory (where the [<name>.pkl] cache entries
      live), the temporary directory, the session-state dictionary, what the
      current run has put on the page, standard output, and a ghost log of the
      calls made to the third-party collaborators;
    - a state-and-exception monad [M] over that world: a Python exception
      aborts the rest of the block and keeps every effect made so far;
    - the collaborators the script imports (PyPDFLoader, FAISS, pickle, the
      conversational chain) as an interface, [Providers], since their code is
      not part of the repository. *)

From stdpp Require Import gmap strings list fin_maps pretty.
From Stdlib Require Import QArith.
Close Scope Q_scope.

Open Scope string_scope.

(** ** Values *)

(** [bytes]: the content of a file. *)
Abbreviation bytes := (list Byte.byte).

(** A LangChain [Document]: one chunk of page text with the page it is from. *)
Record Document := { page_content : string; page : nat }.

(** One entry of [st.session_state["history"]]: the tuple [(query, answer)]. *)
Abbreviation Turn := (string * string)%type.

(** Python exceptions, the subclasses of [Exception].  The first three are
    raised by the interpreter for the script's own statements; [LibraryError]
    is any exception raised inside a third-party call, by class name and
    message.  What derives from [BaseException] alone (a cancelled task, the
    interpreter's and Streamlit's control signals) is not an outcome of the
    statements modelled here. *)
Inductive Exception :=
| FileNotFoundError (path : string)
| KeyError (key : string)
| IndexError
| LibraryError (cls msg : string).

(** [str(e)], as the error box shows it. *)
Definition str (e : Exception) : string :=
  match e with
  | FileNotFoundError p => "[Errno 2] No such file or directory: '" ++ p ++ "'"
  | KeyError k => "'" ++ k ++ "'"
  | IndexError => "list index out of range"
  | LibraryError _ msg => msg
  end.

(** [type(e).__name__]. *)
Definition class_name (e : Exception) : string :=
  match e with
  | FileNotFoundError _ => "FileNotFoundError"
  | KeyError _ => "KeyError"
  | IndexError => "IndexError"
  | LibraryError cls _ => cls
  end.

(** What evaluating a statement or a call gives. *)
Inductive Outcome (A : Type) :=
| Returned (a : A)
| Raised (e : Exception).
Arguments Returned {A} a.
Arguments Raised {A} e.

(** [ChatOpenAI(temperature=..., model_name=...)]. *)
Record ChatOpenAI := { temperature : Q; model_name : string }.

(** ** Collaborators *)

(** The third-party calls of the script.  [VectorStore] is the FAISS store.
    [pickle_dump v] gives the bytes that reached the file and the exception,
    if pickling stopped with one. *)
Class Providers := {
  VectorStore : Type;
  load_and_split : bytes -> Outcome (list Document);
  from_documents : list Document -> Outcome VectorStore;
  pickle_dump : VectorStore -> bytes * option Exception;
  pickle_load : bytes -> Outcome VectorStore;
  similarity_search : VectorStore -> string -> list Document;
  run_chain : ChatOpenAI -> VectorStore -> string -> list Turn -> Outcome string
}.

(** ** The world *)

(** [st.session_state], one field per key the script uses; [None] is
    "key not in st.session_state". *)
Record SessionState := {
  history : option (list Turn);
  ready : option bool;
  reset_chat : option bool;
  generated : option (list string);
  past : option (list string)
}.

Definition new_session : SessionState :=
  {| history := None; ready := None; reset_chat := None;
     generated := None; past := None |}.

(** A call of [message(text, is_user=..., key=...)]. *)
Record Message := { text : string; is_user : bool; key : string }.

(** What a run puts on the page outside the chat container. *)
Inductive Element :=
| Markdown (html : string)
| SidebarInfo (msg : string)
| FileExpander (name : string)
| ErrorBox (msg : string)
| AboutBox.

(** A value passed to [print]. *)
Inductive Printed :=
| PStr (s : string)
| PHistory (h : list Turn).

(** Ghost log: the collaborator calls, and the entry into the builder. *)
Inductive Call :=
| CallStore (filename : string)
| CallLoader (data : bytes)
| CallEmbed (docs : list Document)
| CallDump
| CallLoad (blob : bytes)
| CallChatOpenAI (llm : ChatOpenAI)
| CallChain (llm : ChatOpenAI) (question : string) (chat_history : list Turn).

Record World := {
  cwd : gmap string bytes;
  tmpdir : gmap nat bytes;
  session : SessionState;
  page_elems : list Element;
  response_container : list Message;
  stdout : list Printed;
  calls : list Call
}.

(** ** The monad *)

Definition M (A : Type) : Type := World -> Outcome A * World.

Definition ret {A} (a : A) : M A := fun w => (Returned a, w).

Definition bind {A B} (m : M A) (k : A -> M B) : M B :=
  fun w => match m w with
           | (Returned a, w') => k a w'
           | (Raised e, w') => (Raised e, w')
           end.

Definition raise {A} (e : Exception) : M A := fun w => (Raised e, w).

(** [try: body except Exception as e: handler e]. *)
Definition try_except {A} (body : M A) (handler : Exception -> M A) : M A :=
  fun w => match body w with
           | (Returned a, w') => (Returned a, w')
           | (Raised e, w') => handler e w'
           end.

(** A collaborator's result, raised or returned. *)
Definition lift {A} (o : Outcome A) : M A := fun w => (o, w).

Definition get : M World := fun w => (Returned w, w).
Definition put (w : World) : M unit := fun _ => (Returned tt, w).
Definition modify (f : World -> World) : M unit := fun w => (Returned tt, f w).

Declare Scope py_scope.
Delimit Scope py_scope with py.
Notation "x <- c ;; k" := (bind c (fun x => k))
  (at level 100, c at next level, right associativity) : py_scope.
Notation "c ;; k" := (bind c (fun _ => k))
  (at level 100, right associativity) : py_scope.
Open Scope py_scope.

(** ** World updates *)

Definition set_cwd (f : gmap string bytes -> gmap string bytes) (w : World) : World :=
  {| cwd := f (cwd w); tmpdir := tmpdir w; session := session w;
     page_elems := page_elems w; response_container := response_container w;
     stdout := stdout w; calls := calls w |}.

Definition set_tmpdir (f : gmap nat bytes -> gmap nat bytes) (w : World) : World :=
  {| cwd := cwd w; tmpdir := f (tmpdir w); session := session w;
     page_elems := page_elems w; response_container := response_container w;
     stdout := stdout w; calls := calls w |}.

Definition set_session (f : SessionState -> SessionState) (w : World) : World :=
  {| cwd := cwd w; tmpdir := tmpdir w; session := f (session w);
     page_elems := page_elems w; response_container := response_container w;
     stdout := stdout w; calls := calls w |}.

Definition set_page (f : list Element -> list Element) (w : World) : World :=
  {| cwd := cwd w; tmpdir := tmpdir w; session := session w;
     page_elems := f (page_elems w); response_container := response_container w;
     stdout := stdout w; calls := calls w |}.

Definition set_response (f : list Message -> list Message) (w : World) : World :=
  {| cwd := cwd w; tmpdir := tmpdir w; session := session w;
     page_elems := page_elems w; response_container := f (response_container w);
     stdout := stdout w; calls := calls w |}.

Definition set_stdout (f : list Printed -> list Printed) (w : World) : World :=
  {| cwd := cwd w; tmpdir := tmpdir w; session := session w;
     page_elems := page_elems w; response_container := response_container w;
     stdout := f (stdout w); calls := calls w |}.

Definition set_calls (f : list Call -> list Call) (w : World) : World :=
  {| cwd := cwd w; tmpdir := tmpdir w; session := session w;
     page_elems := page_elems w; response_container := response_container w;
     stdout := stdout w; calls := f (calls w) |}.

Definition log (c : Call) : M unit := modify (set_calls (fun l => (l ++ [c])%list)).
Definition print (p : Printed) : M unit := modify (set_stdout (fun l => (l ++ [p])%list)).
Definition st_write (e : Element) : M unit := modify (set_page (fun l => (l ++ [e])%list)).

(** ** Files *)

(** The cache entry of an uploaded file: [filename + ".pkl"]. *)
Definition pkl (filename : string) : string := filename ++ ".pkl".

(** [os.path.isfile(path)], for a path of the working directory. *)
Definition os_path_isfile (path : string) : M bool :=
  w <- get ;; ret (bool_decide (is_Some (cwd w !! path))).

(** [with tempfile.NamedTemporaryFile(mode="wb", delete=False) as tmp_file:
       tmp_file.write(file); tmp_file_path = tmp_file.name]:
    a file under a name the temporary directory does not hold yet; leaving the
    [with] block closes it and, because of [delete=False], keeps it. *)
Definition NamedTemporaryFile_write (file : bytes) : M nat :=
  w <- get ;;
  let tmp_file_path := fresh (dom (tmpdir w)) in
  modify (set_tmpdir (insert tmp_file_path file)) ;;
  ret tmp_file_path.

(** [os.remove(tmp_file_path)]. *)
Definition os_remove (tmp_file_path : nat) : M unit :=
  w <- get ;;
  match tmpdir w !! tmp_file_path with
  | Some _ => modify (set_tmpdir (delete tmp_file_path))
  | None => raise (FileNotFoundError ("/tmp/" ++ pretty tmp_file_path))
  end.

Section Script.
Context `{P : Providers}.

(** [PyPDFLoader(file_path=tmp_file_path).load_and_split()]. *)
Definition PyPDFLoader_load_and_split (tmp_file_path : nat) : M (list Document) :=
  w <- get ;;
  match tmpdir w !! tmp_file_path with
  | Some data => log (CallLoader data) ;; lift (load_and_split data)
  | None => raise (FileNotFoundError ("/tmp/" ++ pretty tmp_file_path))
  end.

(** [FAISS.from_documents(data, OpenAIEmbeddings())]: the one place the
    embedding provider is called. *)
Definition FAISS_from_documents (data : list Document) : M VectorStore :=
  log (CallEmbed data) ;; lift (from_documents data).

(** [with open(path, "wb") as f: pickle.dump(vectors, f)]: opening creates or
    truncates the file, then the pickler writes.  The working directory is a
    flat map: [path] stands for a name [open] can create there (see
    [plain_name]). *)
Definition open_wb_pickle_dump (path : string) (vectors : VectorStore) : M unit :=
  modify (set_cwd (insert path [])) ;;
  log CallDump ;;
  let '(written, err) := pickle_dump vectors in
  modify (set_cwd (insert path written)) ;;
  match err with
  | Some e => raise e
  | None => ret tt
  end.

(** [with open(path, "rb") as f: vectors = pickle.load(f)]. *)
Definition open_rb_pickle_load (path : string) : M VectorStore :=
  w <- get ;;
  match cwd w !! path with
  | Some blob => log (CallLoad blob) ;; lift (pickle_load blob)
  | None => raise (FileNotFoundError path)
  end.

(** ** [storeDocEmbeds] (lines 74-94) *)
Definition storeDocEmbeds (file : bytes) (filename : string) : M unit :=
  log (CallStore filename) ;;
  tmp_file_path <- NamedTemporaryFile_write file ;;
  data <- PyPDFLoader_load_and_split tmp_file_path ;;
  vectors <- FAISS_from_documents data ;;
  os_remove tmp_file_path ;;
  open_wb_pickle_dump (pkl filename) vectors.

(** ** [getDocEmbeds] (lines 97-109) *)
Definition getDocEmbeds (file : bytes) (filename : string) : M VectorStore :=
  cached <- os_path_isfile (pkl filename) ;;
  (if negb cached then storeDocEmbeds file filename else ret tt) ;;
  vectors <- open_rb_pickle_load (pkl filename) ;;
  ret vectors.

(** ** The session dictionary *)

(** [st.session_state[k]] for a key that must be there. *)
Definition ss_get {A} (k : string) (field : SessionState -> option A) : M A :=
  w <- get ;;
  match field (session w) with
  | Some v => ret v
  | None => raise (KeyError k)
  end.

Definition with_history (v : list Turn) (s : SessionState) : SessionState :=
  {| history := Some v; ready := ready s; reset_chat := reset_chat s;
     generated := generated s; past := past s |}.

Definition with_ready (v : bool) (s : SessionState) : SessionState :=
  {| history := history s; ready := Some v; reset_chat := reset_chat s;
     generated := generated s; past := past s |}.

Definition with_reset_chat (v : bool) (s : SessionState) : SessionState :=
  {| history := history s; ready := ready s; reset_chat := Some v;
     generated := generated s; past := past s |}.

Definition with_generated (v : list string) (s : SessionState) : SessionState :=
  {| history := history s; ready := ready s; reset_chat := reset_chat s;
     generated := Some v; past := past s |}.

Definition with_past (v : list string) (s : SessionState) : SessionState :=
  {| history := history s; ready := ready s; reset_chat := reset_chat s;
     generated := generated s; past := Some v |}.

(** [st.session_state[k] = v]. *)
Definition ss_set (upd : SessionState -> SessionState) : M unit :=
  modify (set_session upd).

(** [if k not in st.session_state: st.session_state[k] = v]. *)
Definition ss_setdefault {A} (field : SessionState -> option A)
    (upd : A -> SessionState -> SessionState) (v : A) : M unit :=
  w <- get ;;
  match field (session w) with
  | Some _ => ret tt
  | None => ss_set (upd v)
  end.

(** [st.session_state[k].append(x)]. *)
Definition ss_append {A} (k : string) (field : SessionState -> option (list A))
    (upd : list A -> SessionState -> SessionState) (x : A) : M unit :=
  l <- ss_get k field ;;
  ss_set (upd (l ++ [x])%list).

(** ** The chain *)

(** [ConversationalRetrievalChain.from_llm(llm=..., retriever=...)]. *)
Record Chain := { llm : ChatOpenAI; retriever : VectorStore }.

(** [chain({"question": query, "chat_history": h})["answer"]]. *)
Definition call_chain (chain : Chain) (query : string) (h : list Turn) : M string :=
  log (CallChain (llm chain) query h) ;;
  lift (run_chain (llm chain) (retriever chain) query h).

(** ** [conversational_chat] (lines 112-124); [chain] is the enclosing
    function's variable. *)
Definition conversational_chat (chain : Chain) (query : string) : M string :=
  h <- ss_get "history" history ;;
  answer <- call_chain chain query h ;;
  ss_append "history" history with_history (query, answer) ;;
  print (PStr "Log: ") ;;
  h' <- ss_get "history" history ;;
  print (PHistory h') ;;
  ret answer.

(** ** The page *)

(** The uploaded file: [uploaded_file.name] and what [uploaded_file.read()]
    gives after [seek(0)]. *)
Record UploadedFile := { name : string; content : bytes }.

(** What the widgets return in one run of the script. *)
Record Widgets := {
  user_api_key : string;
  uploaded_file : option UploadedFile;
  reset_button : bool;          (* st.button("Reset Chat") *)
  MODEL : string;               (* st.selectbox(label="Model", ...) *)
  TEMPERATURE : Q;              (* st.slider(label="Temperature", ...) *)
  user_input : string;          (* st.text_input("Query:", ...) *)
  submit_button : bool          (* st.form_submit_button(label="Send") *)
}.

Definition hey : string := "Hey ! 👋".

Definition greeting (filename : string) : string :=
  "Hello ! Ask me anything about " ++ filename ++ " 🤗".

(** [message(text, is_user=..., key=...)] inside [with response_container:]. *)
Definition message (text : string) (is_user : bool) (key : string) : M unit :=
  modify (set_response (fun l =>
    (l ++ [{| text := text; is_user := is_user; key := key |}])%list)).

(** [response_container.empty()]. *)
Definition response_container_empty : M unit :=
  modify (set_response (fun _ => [])).

(** [for x in xs: body x]. *)
Fixpoint for_each {A} (xs : list A) (body : A -> M unit) : M unit :=
  match xs with
  | [] => ret tt
  | x :: xs' => body x ;; for_each xs' body
  end.

(** [l[i]]. *)
Definition index {A} (l : list A) (i : nat) : M A :=
  match l !! i with
  | Some x => ret x
  | None => raise IndexError
  end.

(** Lines 199-207: the body of [if st.session_state["reset_chat"]:]. *)
Definition reset (filename : string) : M unit :=
  ss_set (with_history []) ;;
  ss_set (with_past [hey]) ;;
  ss_set (with_generated [greeting filename]) ;;
  response_container_empty ;;
  ss_set (with_reset_chat false).

(** Lines 210-217: a submitted, non-empty query. *)
Definition submit (chain : Chain) (user_input : string) : M unit :=
  output <- conversational_chat chain user_input ;;
  ss_append "past" past with_past user_input ;;
  ss_append "generated" generated with_generated output.

(** Lines 226-232: the body of the display loop. *)
Definition render_turn (i : nat) : M unit :=
  p <- ss_get "past" past ;;
  user_msg <- index p i ;;
  message user_msg true (pretty i ++ "_user") ;;
  g <- ss_get "generated" generated ;;
  bot_msg <- index g i ;;
  message bot_msg false (pretty i).

(** Lines 220-232: the chat display. *)
Definition render : M unit :=
  g <- ss_get "generated" generated ;;
  if bool_decide (g = []) then ret tt
  else for_each (seq 0 (length g)) render_turn.

(** Lines 173-232: the body of [if st.session_state["ready"]:]. *)
Definition chat_block (chain : Chain) (inp : Widgets) (filename : string) : M unit :=
  ss_setdefault generated with_generated [greeting filename] ;;
  ss_setdefault past with_past [hey] ;;
  flag <- ss_get "reset_chat" reset_chat ;;
  (if flag then reset filename else ret tt) ;;
  (if submit_button inp && negb (bool_decide (user_input inp = ""))
   then submit chain (user_input inp) else ret tt) ;;
  render.

(** Lines 73-233: the body of [try:], for the uploaded file [f].  The block
    is entered under [if uploaded_file:], so its inner test
    [if uploaded_file is not None:] holds. *)
Definition try_block (inp : Widgets) (f : UploadedFile) : M unit :=
  (if reset_button inp then ss_set (with_reset_chat true) else ret tt) ;;
  let MODEL := MODEL inp in
  let TEMPERATURE := TEMPERATURE inp in
  ss_setdefault history with_history [] ;;
  ss_setdefault ready with_ready false ;;
  ss_setdefault reset_chat with_reset_chat false ;;
  let file := content f in
  vectors <- getDocEmbeds file (name f) ;;
  let chat_model := {| temperature := 0.0; model_name := MODEL |} in
  log (CallChatOpenAI chat_model) ;;
  let chain := {| llm := chat_model; retriever := vectors |} in
  ss_set (with_ready true) ;;
  is_ready <- ss_get "ready" ready ;;
  if is_ready then chat_block chain inp (name f) else ret tt.

Definition enter_key_html : string :=
  "<div style='text-align: center;'><h4>Enter your OpenAI API key to start chatting 😉</h4></div>".

Definition upload_hint : string :=
  "👆 Upload your PDF file to get started, sample for try : [file.pdf](https://github.com/gabacode/chatPDF/blob/main/file.pdf)".

(** ** [main] (lines 37-254) *)
Definition main (inp : Widgets) : M unit :=
  (if bool_decide (user_api_key inp = "") then st_write (Markdown enter_key_html)
   else
     match uploaded_file inp with
     | Some f => st_write (FileExpander (name f))
     | None => st_write (SidebarInfo upload_hint)
     end ;;
     match uploaded_file inp with
     | Some f =>
         try_except (try_block inp f)
                    (fun e => st_write (ErrorBox ("Error: " ++ str e)))
     | None => ret tt
     end) ;;
  st_write AboutBox.

(** One run of the script: Streamlit starts from an empty page, with the
    session state and the files as the previous run left them. *)
Definition clear_page (w : World) : World :=
  set_response (fun _ => []) (set_page (fun _ => []) w).

Definition script_run (inp : Widgets) (w : World) : World :=
  snd (main inp (clear_page w)).

End Script.

(** ** Counting calls in the ghost log *)

Definition is_store (c : Call) : bool :=
  match c with CallStore _ => true | _ => false end.

Definition is_embed (c : Call) : bool :=
  match c with CallEmbed _ => true | _ => false end.

(** How often [storeDocEmbeds] was entered. *)
Definition builder_runs (w : World) : nat := length (filter is_store (calls w)).

(** How often the embedding provider was called. *)
Definition embed_calls (w : World) : nat := length (filter is_embed (calls w)).

(** ** Predicates used in the statements *)

(** The two display lists go together: both absent, or both present and of
    the same length. *)
Definition paired (s : SessionState) : bool :=
  match generated s, past s with
  | Some g, Some p => Nat.eqb (length g) (length p)
  | None, None => true
  | _, _ => false
  end.

(** The session after the reset block: only [ready] is kept. *)
Definition cleared (filename : string) (s : SessionState) : SessionState :=
  {| history := Some []; ready := ready s; reset_chat := Some false;
     generated := Some [greeting filename]; past := Some [hey] |}.

(** The greeting turn as the chat display shows it. *)
Definition greeting_turn (filename : string) : list Message :=
  [ {| text := hey; is_user := true; key := "0_user" |};
    {| text := greeting filename; is_user := false; key := "0" |} ].

(** What the display loop shows for index [i] of the two lists. *)
Definition turn_at (p g : list string) (i : nat) : list Message :=
  match p !! i, g !! i with
  | Some u, Some b =>
      [ {| text := u; is_user := true; key := pretty i ++ "_user" |};
        {| text := b; is_user := false; key := pretty i |} ]
  | _, _ => []
  end.

(** The session keys after lines 129-149: the reset flag raised by a click,
    and [history], [ready] and [reset_chat] given their defaults where absent. *)
Definition keys_after (clicked : bool) (s : SessionState) : SessionState :=
  {| history := Some (default [] (history s));
     ready := Some (default false (ready s));
     reset_chat := Some (if clicked then true else default false (reset_chat s));
     generated := generated s; past := past s |}.

(** The session after the greeting initialisation of lines 176-180. *)
Definition greeted (filename : string) (s : SessionState) : SessionState :=
  {| history := history s; ready := ready s; reset_chat := reset_chat s;
     generated := Some (default [greeting filename] (generated s));
     past := Some (default [hey] (past s)) |}.

(** The widgets of the same run without a submitted query. *)
Definition without_submit (inp : Widgets) : Widgets :=
  {| user_api_key := user_api_key inp; uploaded_file := uploaded_file inp;
     reset_button := reset_button inp; MODEL := MODEL inp;
     TEMPERATURE := TEMPERATURE inp; user_input := user_input inp;
     submit_button := false |}.

(** [m] keeps the property [I] of the world, however it ends. *)
Definition preserves {A} (I : World -> Prop) (m : M A) : Prop :=
  forall w, I w -> I (snd (m w)).

(** A logged call that names a chat model names one of temperature zero. *)
Definition cold (c : Call) : bool :=
  match c with
  | CallChatOpenAI m | CallChain m _ _ => Qeq_bool (temperature m) 0
  | _ => true
  end.

(** The widgets of a run with the slider moved to [t]. *)
Definition with_TEMPERATURE (t : Q) (inp : Widgets) : Widgets :=
  {| user_api_key := user_api_key inp; uploaded_file := uploaded_file inp;
     reset_button := reset_button inp; MODEL := MODEL inp; TEMPERATURE := t;
     user_input := user_input inp; submit_button := submit_button inp |}.

(** ** Test doubles

    Stand-ins for the collaborators, for evaluating the script on concrete
    inputs.  A "PDF" is a byte string with one page per non-null byte, and the
    empty file is unreadable; the store keeps the page bytes; a pickle is the
    protocol byte [0x80] followed by the store, and an empty file is a pickle
    cut short; the chain echoes the question and fails on the question
    "quota".  With no documents the store constructor of [strict] raises
    [IndexError], as [FAISS.from_documents] does; [lenient] differs from it
    there alone. *)

Definition stub_pages (data : bytes) : list Document :=
  imap (fun i b => {| page_content := String (Ascii.ascii_of_byte b) EmptyString;
                      page := S i |})
       (List.filter (fun b => negb (Byte.eqb b Byte.x00)) data).

Definition stub_bytes (docs : list Document) : bytes :=
  omap (fun d => match page_content d with
                 | String a _ => Some (Ascii.byte_of_ascii a)
                 | EmptyString => None
                 end) docs.

Definition stub (strict : bool) : Providers := {|
  VectorStore := bytes;
  load_and_split data :=
    match data with
    | [] => Raised (LibraryError "EmptyFileError" "Cannot read an empty file")
    | _ => Returned (stub_pages data)
    end;
  from_documents docs :=
    match docs with
    | [] => if strict then Raised IndexError else Returned []
    | _ => Returned (stub_bytes docs)
    end;
  pickle_dump v := (Byte.x80 :: v, None);
  pickle_load blob :=
    match blob with
    | Byte.x80 :: rest => Returned rest
    | [] => Raised (LibraryError "EOFError" "Ran out of input")
    | _ => Raised (LibraryError "UnpicklingError" "invalid load key")
    end;
  similarity_search v q := take 4 (stub_pages v);
  run_chain llm v q h :=
    if bool_decide (q = "quota")
    then Raised (LibraryError "RateLimitError" "You exceeded your current quota")
    else Returned ("You asked: " ++ q)
|}.

(** A first visit: nothing on disk, an empty session dictionary. *)
Definition first_visit : World :=
  {| cwd := ∅; tmpdir := ∅; session := new_session; page_elems := [];
     response_container := []; stdout := []; calls := [] |}.

(** A two-page upload. *)
Definition two_pages : UploadedFile :=
  {| name := "a.pdf"; content := [Byte.x41; Byte.x42] |}.

(** The collaborators used in the examples. *)
Definition lenient : Providers := stub false.
Definition strict : Providers := stub true.

(** The store built from [two_pages], and the chain as [try_block] builds it
    over that store. *)
Definition two_pages_store : bytes := [Byte.x41; Byte.x42].

Definition demo_chain : @Chain lenient :=
  {| llm := {| temperature := 0.0; model_name := "gpt-3.5-turbo" |};
     retriever := two_pages_store : @VectorStore lenient |}.

(** A session in which one question has been asked about [two_pages]. *)
Definition chatting : World :=
  {| cwd := {[ "a.pdf.pkl" := [Byte.x80; Byte.x41; Byte.x42] ]};
     tmpdir := ∅;
     session := {| history := Some [("hi", "You asked: hi")];
                   ready := Some true; reset_chat := Some false;
                   generated := Some [greeting "a.pdf"; "You asked: hi"];
                   past := Some [hey; "hi"] |};
     page_elems := []; response_container := []; stdout := []; calls := [] |}.

(** A first visit that finds a truncated cache entry for [two_pages]. *)
Definition corrupt_cache : World :=
  set_cwd (insert "a.pdf.pkl" []) first_visit.

(** An upload made of one blank page: readable, and without any segment. *)
Definition blank_page : UploadedFile :=
  {| name := "blank.pdf"; content := [Byte.x00] |}.

(** The widgets of a run: the upload, the buttons, the slider, the query. *)
Definition widgets (f : UploadedFile) (reset_clicked : bool) (t : Q)
    (query : string) (send : bool) : Widgets :=
  {| user_api_key := "sk-test"; uploaded_file := Some f;
     reset_button := reset_clicked; MODEL := "gpt-3.5-turbo"; TEMPERATURE := t;
     user_input := query; submit_button := send |}.

(** ** The statements before [main] (lines 25-34) *)

Definition api_key_notice : string := "API key loaded from env 🚀".

(** [user_api_key = os.getenv("OPENAI_API_KEY")], then
    [if not user_api_key:] the sidebar's text input, [else:] a notice in the
    sidebar.  The result is the key [main] sees and what
    [st.sidebar.write] showed, if it was called. *)
Definition load_user_api_key (getenv : option string) (text_input : string)
    : string * option string :=
  match getenv with
  | Some user_api_key =>
      if bool_decide (user_api_key = "") then (text_input, None)
      else (user_api_key, Some api_key_notice)
  | None => (text_input, None)
  end.

(** ** Further predicates *)


(** A file name [open(path, "wb")] can create in the working directory: no
    directory part (no slash, code 47, and no backslash, code 92), no NUL, and
    within the 255 bytes of a file name. *)
Definition plain_name (path : string) : bool :=
  (forallb (fun a => negb (existsb (Nat.eqb (Ascii.nat_of_ascii a)) [0; 47; 92]))
           (String.list_ascii_of_string path)
   && (String.length path <=? 255))%nat.

(** A character of a decimal numeral. *)
Definition is_digit (a : Ascii.ascii) : bool :=
  ((48 <=? Ascii.nat_of_ascii a) && (Ascii.nat_of_ascii a <=? 57))%nat.

Fixpoint all_digits (s : string) : bool :=
  match s with
  | EmptyString => true
  | String a s' => is_digit a && all_digits s'
  end.

(** A test double whose pickler stops after the protocol byte. *)
Definition flaky_pickle : Providers := {|
  VectorStore := bytes;
  load_and_split := @load_and_split lenient;
  from_documents := @from_documents lenient;
  pickle_dump v :=
    ([Byte.x80], Some (LibraryError "PicklingError" "cannot pickle the index"));
  pickle_load := @pickle_load lenient;
  similarity_search := @similarity_search lenient;
  run_chain := @run_chain lenient
|}.

(** * Properties *)

Section Facts.
Context `{P : Providers}.

Lemma bind_returned {A B} (m : M A) (k : A -> M B) w a w' :
  m w = (Returned a, w') -> bind m k w = k a w'.
Proof. intros H. unfold bind. now rewrite H. Qed.

Lemma bind_raised {A B} (m : M A) (k : A -> M B) w e w' :
  m w = (Raised e, w') -> bind m k w = (Raised e, w').
Proof. intros H. unfold bind. now rewrite H. Qed.

(** The temporary file gets a name the directory does not hold. *)
Lemma tmp_name_fresh (w : World) : tmpdir w !! fresh (dom (tmpdir w)) = None.
Proof. apply not_elem_of_dom, is_fresh. Qed.

(** What a call of [storeDocEmbeds] does, by the collaborators' answers. *)
Lemma storeDocEmbeds_eq (file : bytes) (filename : string) (w : World) :
  storeDocEmbeds file filename w =
  let tmp := fresh (dom (tmpdir w)) in
  match load_and_split file with
  | Raised e =>
      (Raised e,
       set_calls (fun l => (l ++ [CallStore filename; CallLoader file])%list)
         (set_tmpdir (insert tmp file) w))
  | Returned data =>
      match from_documents data with
      | Raised e =>
          (Raised e,
           set_calls (fun l => (l ++ [CallStore filename; CallLoader file;
                                      CallEmbed data])%list)
             (set_tmpdir (insert tmp file) w))
      | Returned vectors =>
          (match snd (pickle_dump vectors) with
           | Some e => Raised e
           | None => Returned tt
           end,
           set_calls (fun l => (l ++ [CallStore filename; CallLoader file;
                                      CallEmbed data; CallDump])%list)
             (set_cwd (insert (pkl filename) (fst (pickle_dump vectors))) w))
      end
  end.
Proof.
  pose proof (tmp_name_fresh w) as Hfresh.
  destruct w as [c t s pg rc so cl]. simpl in *.
  unfold storeDocEmbeds, NamedTemporaryFile_write, PyPDFLoader_load_and_split,
    FAISS_from_documents, os_remove, open_wb_pickle_dump, log, bind, modify, get,
    ret, lift, raise, set_calls, set_tmpdir, set_cwd. simpl.
  rewrite lookup_insert_eq.
  destruct (load_and_split file) as [data|e]; simpl.
  2: { now rewrite <- !app_assoc. }
  destruct (from_documents data) as [v|e]; simpl.
  2: { now rewrite <- !app_assoc. }
  rewrite lookup_insert_eq.
  destruct (pickle_dump v) as [written [e|]]; simpl;
    rewrite delete_insert_id by exact Hfresh;
    rewrite insert_insert_eq; now rewrite <- !app_assoc.
Qed.

(** A cached entry is loaded, and nothing else happens. *)
Lemma getDocEmbeds_cached (file : bytes) (filename : string) (w : World) blob :
  cwd w !! pkl filename = Some blob ->
  getDocEmbeds file filename w =
  (pickle_load blob, set_calls (fun l => (l ++ [CallLoad blob])%list) w).
Proof.
  intros Hc. destruct w as [c t s pg rc so cl]. simpl in *.
  unfold getDocEmbeds, os_path_isfile, open_rb_pickle_load, log, bind, modify,
    get, ret, lift, raise, set_calls. simpl.
  rewrite Hc. rewrite bool_decide_eq_true_2 by eauto. simpl.
  rewrite Hc. now destruct (pickle_load blob).
Qed.

(** Without an entry the builder runs first. *)
Lemma getDocEmbeds_uncached (file : bytes) (filename : string) (w : World) :
  cwd w !! pkl filename = None ->
  getDocEmbeds file filename w =
  match storeDocEmbeds file filename w with
  | (Returned _, w') =>
      match cwd w' !! pkl filename with
      | Some blob =>
          (pickle_load blob, set_calls (fun l => (l ++ [CallLoad blob])%list) w')
      | None => (Raised (FileNotFoundError (pkl filename)), w')
      end
  | (Raised e, w') => (Raised e, w')
  end.
Proof.
  intros Hc. unfold getDocEmbeds, os_path_isfile.
  unfold bind at 1 2. unfold get at 1. unfold ret at 1.
  rewrite bool_decide_eq_false_2 by (rewrite Hc; intros [? ?]; discriminate).
  simpl. unfold bind at 1.
  destruct (storeDocEmbeds file filename w) as [[[]|e] w']; [|reflexivity].
  unfold open_rb_pickle_load, bind, get, ret, log, modify, lift, raise.
  destruct (cwd w' !! pkl filename) as [blob|]; [|reflexivity].
  now destruct (pickle_load blob).
Qed.

Lemma builder_runs_log (w : World) (l' : list Call) :
  builder_runs (set_calls (fun l => (l ++ l')%list) w)
  = (builder_runs w + length (filter is_store l'))%nat.
Proof.
  unfold builder_runs. destruct w; simpl. now rewrite filter_app, length_app.
Qed.

Lemma embed_calls_log (w : World) (l' : list Call) :
  embed_calls (set_calls (fun l => (l ++ l')%list) w)
  = (embed_calls w + length (filter is_embed l'))%nat.
Proof.
  unfold embed_calls. destruct w; simpl. now rewrite filter_app, length_app.
Qed.

Lemma builder_runs_set_cwd f (w : World) : builder_runs (set_cwd f w) = builder_runs w.
Proof. reflexivity. Qed.

Lemma embed_calls_set_cwd f (w : World) : embed_calls (set_cwd f w) = embed_calls w.
Proof. reflexivity. Qed.

(** What a successful call of [getDocEmbeds] without an entry went through. *)
Lemma getDocEmbeds_built (file : bytes) (filename : string) (w w1 : World) v :
  cwd w !! pkl filename = None ->
  getDocEmbeds file filename w = (Returned v, w1) ->
  exists data built,
    load_and_split file = Returned data /\
    from_documents data = Returned built /\
    snd (pickle_dump built) = None /\
    pickle_load (fst (pickle_dump built)) = Returned v /\
    w1 = set_calls (fun l => (l ++ [CallLoad (fst (pickle_dump built))])%list)
           (set_calls (fun l => (l ++ [CallStore filename; CallLoader file;
                                       CallEmbed data; CallDump])%list)
              (set_cwd (insert (pkl filename) (fst (pickle_dump built))) w)).
Proof.
  intros Hc. rewrite (getDocEmbeds_uncached _ _ _ Hc), storeDocEmbeds_eq. simpl.
  destruct (load_and_split file) as [data|e] eqn:Hl; [|discriminate].
  destruct (from_documents data) as [built|e] eqn:Hf; [|discriminate].
  destruct (snd (pickle_dump built)) as [e|] eqn:Herr; [discriminate|].
  replace (cwd _ !! pkl filename) with (Some (fst (pickle_dump built)))
    by (destruct w; simpl; now rewrite lookup_insert_eq).
  intros [= Hv <-]. now exists data, built.
Qed.

(** C1.  A call of [getDocEmbeds] that finds the cache entry [<filename>.pkl]
    enters neither [storeDocEmbeds] nor the embedding provider.  A call that
    returns a store has entered each at most once, and any later call for the
    same file and name, made while the entry is as that call left it, returns
    the same store (so every query is answered identically) and enters
    neither: over the two calls the builder ran at most once. *)
Theorem getDocEmbeds_builds_at_most_once
    (file : bytes) (filename : string) (w : World) :
  (is_Some (cwd w !! pkl filename) ->
   builder_runs (snd (getDocEmbeds file filename w)) = builder_runs w /\
   embed_calls (snd (getDocEmbeds file filename w)) = embed_calls w)
  /\
  (forall v w1,
     getDocEmbeds file filename w = (Returned v, w1) ->
     builder_runs w1 <= S (builder_runs w) /\
     embed_calls w1 <= S (embed_calls w) /\
     forall w1',
       cwd w1' !! pkl filename = cwd w1 !! pkl filename ->
       exists v2 w2,
         getDocEmbeds file filename w1' = (Returned v2, w2) /\
         v2 = v /\
         (forall q, similarity_search v2 q = similarity_search v q) /\
         builder_runs w2 = builder_runs w1' /\
         embed_calls w2 = embed_calls w1').
Proof.
  split.
  - intros [blob Hc]. rewrite (getDocEmbeds_cached _ _ _ _ Hc). simpl.
    rewrite builder_runs_log, embed_calls_log. simpl. lia.
  - intros v w1 Hcall.
    assert (Hentry : exists blob,
               cwd w1 !! pkl filename = Some blob /\
               pickle_load blob = Returned v /\
               builder_runs w1 <= S (builder_runs w) /\
               embed_calls w1 <= S (embed_calls w)).
    { destruct (cwd w !! pkl filename) as [blob|] eqn:Hc.
      - rewrite (getDocEmbeds_cached _ _ _ _ Hc) in Hcall.
        injection Hcall as Hv <-. exists blob.
        rewrite builder_runs_log, embed_calls_log. simpl.
        repeat split; try lia; now destruct w.
      - destruct (getDocEmbeds_built _ _ _ _ _ Hc Hcall)
          as (data & built & _ & _ & _ & Hv & ->).
        exists (fst (pickle_dump built)).
        rewrite !builder_runs_log, !embed_calls_log,
          builder_runs_set_cwd, embed_calls_set_cwd. simpl.
        repeat split; try lia; try assumption.
        destruct w; simpl. apply lookup_insert_eq. }
    destruct Hentry as (blob & Hblob & Hv & Hb & He).
    split; [exact Hb|]. split; [exact He|].
    intros w1' Hsame. rewrite Hblob in Hsame.
    exists v, (set_calls (fun l => (l ++ [CallLoad blob])%list) w1').
    rewrite (getDocEmbeds_cached _ _ _ _ Hsame), Hv,
      builder_runs_log, embed_calls_log. simpl.
    repeat split; lia.
Qed.

(** X14.  The store [getDocEmbeds] returns is what [pickle.load] makes of the
    bytes of the cache entry, also on the path that has just built the store:
    there the entry holds what [pickle.dump] wrote for the store built from
    the file's documents, and the value returned is its deserialization, not
    the built object. *)
Theorem getDocEmbeds_returns_unpickled_entry
    (file : bytes) (filename : string) (w w1 : World) (v : VectorStore) :
  getDocEmbeds file filename w = (Returned v, w1) ->
  (exists blob,
     cwd w1 !! pkl filename = Some blob /\
     pickle_load blob = Returned v /\
     last (calls w1) = Some (CallLoad blob)) /\
  (cwd w !! pkl filename = None ->
   exists data built,
     load_and_split file = Returned data /\
     from_documents data = Returned built /\
     snd (pickle_dump built) = None /\
     cwd w1 !! pkl filename = Some (fst (pickle_dump built)) /\
     pickle_load (fst (pickle_dump built)) = Returned v).
Proof.
  intros Hcall. split.
  - destruct (cwd w !! pkl filename) as [blob|] eqn:Hc.
    + rewrite (getDocEmbeds_cached _ _ _ _ Hc) in Hcall.
      injection Hcall as Hv <-. exists blob.
      destruct w; simpl in *. repeat split; [assumption..|apply last_snoc].
    + destruct (getDocEmbeds_built _ _ _ _ _ Hc Hcall)
        as (data & built & _ & _ & _ & Hv & ->).
      exists (fst (pickle_dump built)). destruct w; simpl.
      repeat split; [apply lookup_insert_eq|exact Hv|apply last_snoc].
  - intros Hc.
    destruct (getDocEmbeds_built _ _ _ _ _ Hc Hcall)
      as (data & built & Hl & Hf & Herr & Hv & ->).
    exists data, built. repeat split; try assumption.
    destruct w; simpl. apply lookup_insert_eq.
Qed.

(** What a call of [conversational_chat] does, by the chain's answer. *)
Lemma conversational_chat_eq (chain : Chain) (query : string) (w : World) :
  conversational_chat chain query w =
  match history (session w) with
  | None => (Raised (KeyError "history"), w)
  | Some h =>
      let w1 := set_calls (fun l => (l ++ [CallChain (llm chain) query h])%list) w in
      match run_chain (llm chain) (retriever chain) query h with
      | Raised e => (Raised e, w1)
      | Returned answer =>
          let h' := (h ++ [(query, answer)])%list in
          (Returned answer,
           set_stdout (fun l => (l ++ [PStr "Log: "; PHistory h'])%list)
             (set_session (with_history h') w1))
      end
  end.
Proof.
  destruct w as [c t s pg rc so cl]. simpl.
  unfold conversational_chat, call_chain, ss_append, ss_get, ss_set, print, log,
    bind, modify, get, ret, lift, raise. simpl.
  destruct (history s) as [h|] eqn:Hh; [|reflexivity]. simpl.
  destruct (run_chain (llm chain) (retriever chain) query h) as [a|e]; simpl;
    [|reflexivity].
  rewrite Hh. unfold set_stdout. simpl. now rewrite <- app_assoc.
Qed.

(** C3.  When the chain answers, [conversational_chat] returns that answer and
    leaves [history] as it was with the one pair [(query, answer)] added at
    the end: one turn longer, every earlier turn in its place, and the other
    keys of the session untouched. *)
Theorem conversational_chat_appends_one_turn
    (chain : Chain) (query answer : string) (h : list Turn) (w : World) :
  history (session w) = Some h ->
  run_chain (llm chain) (retriever chain) query h = Returned answer ->
  exists w',
    conversational_chat chain query w = (Returned answer, w') /\
    session w' = with_history (h ++ [(query, answer)]) (session w) /\
    (exists h', history (session w') = Some h' /\
                length h' = S (length h) /\
                last h' = Some (query, answer) /\
                take (length h) h' = h /\
                forall i t, h !! i = Some t -> h' !! i = Some t).
Proof.
  intros Hh Hrun. rewrite conversational_chat_eq, Hh. simpl. rewrite Hrun.
  eexists. split; [reflexivity|]. split; [now destruct w|].
  exists (h ++ [(query, answer)])%list. destruct w; simpl.
  split; [reflexivity|]. split; [rewrite length_app; simpl; lia|].
  split; [apply last_snoc|]. split; [now rewrite take_app_length|].
  intros i t Hi. now apply lookup_app_l_Some.
Qed.

(** C4 (as the code has it).  When the chain call raises,
    [conversational_chat] raises that very exception, unwrapped, and the world is as before the call but for the ghost log: the
    session (history included), the files and standard output are unchanged.
    The same holds for the submit step around it, which appends to neither
    display list; whatever statements of the [try] block came before, its
    [except] clause then shows the error text of that exception and the
    display loop is skipped. *)
Theorem conversational_chat_failure_keeps_history
    (chain : Chain) (query : string) (h : list Turn) (e : Exception) (w : World) :
  history (session w) = Some h ->
  run_chain (llm chain) (retriever chain) query h = Raised e ->
  let w' := set_calls (fun l => (l ++ [CallChain (llm chain) query h])%list) w in
  conversational_chat chain query w = (Raised e, w') /\
  submit chain query w = (Raised e, w') /\
  (forall (before : M unit) (w0 : World),
     before w0 = (Returned tt, w) ->
     try_except (before ;; submit chain query ;; render)
                (fun e => st_write (ErrorBox ("Error: " ++ str e))) w0
     = (Returned tt,
        set_page (fun l => (l ++ [ErrorBox ("Error: " ++ str e)])%list) w')) /\
  session w' = session w /\ history (session w') = Some h /\
  cwd w' = cwd w /\ tmpdir w' = tmpdir w /\ stdout w' = stdout w.
Proof.
  intros Hh Hrun w'.
  assert (Hchat : conversational_chat chain query w = (Raised e, w')).
  { rewrite conversational_chat_eq, Hh. simpl. now rewrite Hrun. }
  assert (Hsubmit : submit chain query w = (Raised e, w')).
  { unfold submit. now rewrite (bind_raised _ _ _ _ _ Hchat). }
  split; [exact Hchat|]. split; [exact Hsubmit|]. split.
  - intros before w0 Hbefore. unfold try_except.
    rewrite (bind_returned _ _ _ _ _ Hbefore).
    rewrite (bind_raised _ _ _ _ _ Hsubmit). reflexivity.
  - subst w'. destruct w; simpl in *. now rewrite Hh.
Qed.

Lemma reset_eq (filename : string) (w : World) :
  reset filename w =
  (Returned tt, set_response (fun _ => []) (set_session (cleared filename) w)).
Proof. now destruct w. Qed.

Lemma ss_get_some {A} (k : string) (field : SessionState -> option A) (w : World) v :
  field (session w) = Some v -> ss_get k field w = (Returned v, w).
Proof. intros H. unfold ss_get, bind, get. now rewrite H. Qed.

Lemma ss_get_none {A} (k : string) (field : SessionState -> option A) (w : World) :
  field (session w) = None -> ss_get k field w = (Raised (KeyError k), w).
Proof. intros H. unfold ss_get, bind, get. now rewrite H. Qed.

Lemma index_some {A} (l : list A) (i : nat) (w : World) x :
  l !! i = Some x -> index l i w = (Returned x, w).
Proof. intros H. unfold index. now rewrite H. Qed.

Lemma set_response_twice f g (w : World) :
  set_response g (set_response f w) = set_response (fun l => g (f l)) w.
Proof. now destruct w. Qed.

(** One pass of the display loop, for an index both lists have. *)
Lemma render_turn_eq (w : World) (g p : list string) (i : nat) :
  generated (session w) = Some g ->
  past (session w) = Some p ->
  i < length p -> i < length g ->
  render_turn i w =
  (Returned tt, set_response (fun l => (l ++ turn_at p g i)%list) w).
Proof.
  intros Hg Hp Hip Hig.
  destruct (lookup_lt_is_Some_2 p i Hip) as [u Hu].
  destruct (lookup_lt_is_Some_2 g i Hig) as [b Hb].
  unfold render_turn, turn_at. rewrite Hu, Hb.
  rewrite (bind_returned _ _ _ _ _ (ss_get_some "past" past w p Hp)).
  rewrite (bind_returned _ _ _ _ _ (index_some p i w u Hu)).
  unfold message at 1. unfold bind at 1, modify at 1.
  match goal with |- _ ?w1 = _ =>
    rewrite (bind_returned _ _ _ _ _ (ss_get_some "generated" generated w1 g Hg));
    rewrite (bind_returned _ _ _ _ _ (index_some g i w1 b Hb))
  end.
  unfold message, modify. rewrite set_response_twice.
  destruct w; unfold set_response; simpl. now rewrite <- app_assoc.
Qed.

(** The display loop over indices both lists have. *)
Lemma for_each_render_turn (g p : list string) (idxs : list nat) :
  Forall (fun i => i < length p /\ i < length g) idxs ->
  forall w : World,
    generated (session w) = Some g ->
    past (session w) = Some p ->
    for_each idxs render_turn w =
    (Returned tt,
     set_response (fun l => (l ++ flat_map (turn_at p g) idxs)%list) w).
Proof.
  induction 1 as [|i idxs [Hip Hig] _ IH]; intros w Hg Hp; simpl.
  - destruct w; unfold ret, set_response; simpl. now rewrite app_nil_r.
  - rewrite (bind_returned _ _ _ _ _ (render_turn_eq w g p i Hg Hp Hip Hig)).
    rewrite IH by assumption.
    rewrite set_response_twice.
    destruct w; unfold set_response; simpl. now rewrite <- app_assoc.
Qed.

(** With lists of equal length the display never indexes out of range. *)
Lemma render_eq (w : World) (g p : list string) :
  generated (session w) = Some g ->
  past (session w) = Some p ->
  length g = length p ->
  render w =
  (Returned tt,
   set_response (fun l => (l ++ flat_map (turn_at p g) (seq 0 (length g)))%list) w).
Proof.
  intros Hg Hp Hlen. unfold render.
  rewrite (bind_returned _ _ _ _ _ (ss_get_some "generated" generated w g Hg)).
  case_bool_decide as Hnil.
  - subst g. destruct w; unfold ret, set_response; simpl. now rewrite app_nil_r.
  - apply for_each_render_turn; [|assumption..].
    apply Forall_forall. intros i Hi%elem_of_seq. lia.
Qed.

(** The greeting initialisation, as one update of the session. *)
Lemma greeting_defaults_eq (filename : string) (w : World) :
  (ss_setdefault generated with_generated [greeting filename] ;;
   ss_setdefault past with_past [hey]) w =
  (Returned tt, set_session (greeted filename) w).
Proof.
  destruct w as [c t [hi rd rs g p] pg rc so cl].
  unfold ss_setdefault, ss_set, bind, get, ret, modify. simpl.
  destruct g, p; reflexivity.
Qed.

(** The chat block, by the reset flag and the submitted query. *)
Lemma chat_block_eq (chain : Chain) (inp : Widgets) (filename : string)
    (w : World) (flag : bool) :
  reset_chat (session w) = Some flag ->
  chat_block chain inp filename w =
  let w2 := set_session (greeted filename) w in
  let w3 := if flag
            then set_response (fun _ => []) (set_session (cleared filename) w2)
            else w2 in
  if submit_button inp && negb (bool_decide (user_input inp = ""))
  then match submit chain (user_input inp) w3 with
       | (Returned _, w4) => render w4
       | (Raised e, w4) => (Raised e, w4)
       end
  else render w3.
Proof.
  intros Hflag. unfold chat_block.
  pose proof (greeting_defaults_eq filename w) as Hg. unfold bind at 1 in Hg.
  unfold bind at 1.
  destruct (ss_setdefault generated with_generated [greeting filename] w)
    as [[[]|e] w1]; [|discriminate].
  unfold bind at 1. rewrite Hg.
  rewrite (bind_returned _ _ _ flag _
             (ss_get_some "reset_chat" reset_chat
                (set_session (greeted filename) w) flag Hflag)).
  destruct flag.
  - rewrite (bind_returned _ _ _ _ _ (reset_eq filename _)).
    unfold bind. destruct (submit_button inp && _); [|reflexivity].
    now destruct (submit chain (user_input inp) _) as [[[]|e] w4].
  - unfold bind. unfold ret at 1.
    destruct (submit_button inp && _); [|reflexivity].
    now destruct (submit chain (user_input inp) _) as [[[]|e] w4].
Qed.

(** The [try] block, by what [getDocEmbeds] gives. *)
Lemma try_block_eq (inp : Widgets) (f : UploadedFile) (w : World) :
  try_block inp f w =
  match getDocEmbeds (content f) (name f)
          (set_session (keys_after (reset_button inp)) w) with
  | (Returned vectors, w1) =>
      let chat_model := {| temperature := 0.0; model_name := MODEL inp |} in
      chat_block {| llm := chat_model; retriever := vectors |} inp (name f)
        (set_session (with_ready true)
           (set_calls (fun l => (l ++ [CallChatOpenAI chat_model])%list) w1))
  | (Raised e, w1) => (Raised e, w1)
  end.
Proof.
  assert (Hkeys : forall B (k : unit -> M B),
    ((if reset_button inp then ss_set (with_reset_chat true) else ret tt) ;;
     ss_setdefault history with_history [] ;;
     ss_setdefault ready with_ready false ;;
     x <- ss_setdefault reset_chat with_reset_chat false ;; k x) w
    = k tt (set_session (keys_after (reset_button inp)) w)).
  { intros B k. destruct w as [c t [hi rd rs g p] pg rc so cl].
    unfold ss_setdefault, ss_set, bind, get, ret, modify. simpl.
    destruct (reset_button inp), hi, rd, rs; reflexivity. }
  unfold try_block. rewrite Hkeys. unfold bind at 1.
  destruct (getDocEmbeds (content f) (name f) _) as [[v|e] w1]; reflexivity.
Qed.

(** [main] with a key entered and a file uploaded. *)
Lemma main_eq (inp : Widgets) (f : UploadedFile) (w : World) :
  user_api_key inp <> "" ->
  uploaded_file inp = Some f ->
  main inp w =
  match try_block inp f
          (set_page (fun l => (l ++ [FileExpander (name f)])%list) w) with
  | (Returned _, w1) =>
      (Returned tt, set_page (fun l => (l ++ [AboutBox])%list) w1)
  | (Raised e, w1) =>
      (Returned tt,
       set_page (fun l => (l ++ [AboutBox])%list)
         (set_page (fun l => (l ++ [ErrorBox ("Error: " ++ str e)])%list) w1))
  end.
Proof.
  intros Hkey Hfile. unfold main. rewrite bool_decide_eq_false_2 by exact Hkey.
  rewrite Hfile. unfold try_except, bind, st_write, modify.
  now destruct (try_block inp f _) as [[[]|e] w1].
Qed.

(** C7 (as the code has it).  [storeDocEmbeds] has no test for an empty list
    of documents: it hands the empty list to [FAISS.from_documents], which
    raises [IndexError] for it.  That [IndexError] is how a build from zero
    segments fails.  No cache entry is written, [getDocEmbeds] raises the
    same exception and so never returns a store built from zero segments, and
    the run shows the error text and does not reach the chat. *)
Theorem zero_segments_never_build_an_index
    (file : bytes) (filename : string) (w : World) :
  load_and_split file = Returned [] ->
  from_documents [] = Raised IndexError ->
  let w1 := snd (storeDocEmbeds file filename w) in
  fst (storeDocEmbeds file filename w) = Raised IndexError /\
  calls w1 = (calls w ++ [CallStore filename; CallLoader file; CallEmbed []])%list /\
  cwd w1 = cwd w /\
  (cwd w !! pkl filename = None ->
   getDocEmbeds file filename w = (Raised IndexError, w1) /\
   (forall v, fst (getDocEmbeds file filename w) <> Returned v) /\
   cwd w1 !! pkl filename = None /\
   forall (inp : Widgets) (f : UploadedFile),
     user_api_key inp <> "" ->
     uploaded_file inp = Some f ->
     content f = file -> name f = filename ->
     page_elems (script_run inp w)
     = [FileExpander filename; ErrorBox ("Error: " ++ str IndexError); AboutBox] /\
     response_container (script_run inp w) = [] /\
     cwd (script_run inp w) = cwd w /\
     session (script_run inp w) = keys_after (reset_button inp) (session w)).
Proof.
  intros Hl Hf w1. subst w1.
  assert (Hstore : forall w0,
            storeDocEmbeds file filename w0
            = (Raised IndexError,
               set_calls (fun l => (l ++ [CallStore filename; CallLoader file;
                                          CallEmbed []])%list)
                 (set_tmpdir (insert (fresh (dom (tmpdir w0))) file) w0))).
  { intros w0. rewrite storeDocEmbeds_eq. simpl. now rewrite Hl, Hf. }
  assert (Hget : forall w0,
            cwd w0 !! pkl filename = None ->
            getDocEmbeds file filename w0 = (Raised IndexError, snd (storeDocEmbeds file filename w0))).
  { intros w0 Hc. rewrite (getDocEmbeds_uncached _ _ _ Hc). now rewrite Hstore. }
  rewrite Hstore. simpl.
  split; [reflexivity|]. split; [now destruct w|]. split; [now destruct w|].
  intros Hc.
  split; [now rewrite (Hget _ Hc), Hstore|].
  split; [intros v; now rewrite (Hget _ Hc)|].
  split; [now destruct w|].
  intros inp f Hkey Hfile <- <-. unfold script_run.
  rewrite (main_eq inp f _ Hkey Hfile), try_block_eq.
  rewrite Hget by (now destruct w). rewrite Hstore.
  destruct w; simpl. repeat split.
Qed.

(** C9 (the defect).  When loading the PDF or building the store raises,
    [storeDocEmbeds] stops before [os.remove]: the temporary file it created
    stays in the temporary directory, holding the upload.  Only when both
    succeed is the temporary directory as before the call, the cache entry
    being the one file written. *)
Theorem storeDocEmbeds_temp_file_left_on_error
    (file : bytes) (filename : string) (w : World) (e : Exception) :
  load_and_split file = Raised e \/
  (exists data, load_and_split file = Returned data /\
                from_documents data = Raised e) ->
  let tmp := fresh (dom (tmpdir w)) in
  let w' := snd (storeDocEmbeds file filename w) in
  fst (storeDocEmbeds file filename w) = Raised e /\
  tmpdir w !! tmp = None /\
  tmpdir w' !! tmp = Some file /\
  tmpdir w' = <[tmp := file]> (tmpdir w) /\
  cwd w' = cwd w.
Proof.
  intros Herr tmp w'. subst w'. rewrite storeDocEmbeds_eq. simpl.
  split; [|split; [apply tmp_name_fresh|]].
  - destruct Herr as [-> | (data & -> & ->)]; reflexivity.
  - destruct Herr as [-> | (data & -> & ->)]; destruct w; simpl;
      (split; [apply lookup_insert_eq|split; reflexivity]).
Qed.

(** On the success path the temporary file is removed again. *)
Lemma storeDocEmbeds_cleans_on_success
    (file : bytes) (filename : string) (w : World) data vectors :
  load_and_split file = Returned data ->
  from_documents data = Returned vectors ->
  tmpdir (snd (storeDocEmbeds file filename w)) = tmpdir w /\
  cwd (snd (storeDocEmbeds file filename w))
  = <[pkl filename := fst (pickle_dump vectors)]> (cwd w).
Proof.
  intros Hl Hf. rewrite storeDocEmbeds_eq. simpl. rewrite Hl, Hf.
  now destruct w.
Qed.

End Facts.

(** ** Properties kept by every run

    One pass over the script, for any property of the world that the leaves
    keep: the file and page updates, the logged calls that satisfy [ok_call],
    the updates of [history], [ready] and [reset_chat], and the three blocks
    that write the display lists. *)
Section Preservation.
Context `{P : Providers}.
Variable I : World -> Prop.
Variable ok_call : Call -> Prop.

Hypothesis I_cwd : forall f w, I w -> I (set_cwd f w).
Hypothesis I_tmpdir : forall f w, I w -> I (set_tmpdir f w).
Hypothesis I_page : forall f w, I w -> I (set_page f w).
Hypothesis I_response : forall f w, I w -> I (set_response f w).
Hypothesis I_stdout : forall f w, I w -> I (set_stdout f w).
Hypothesis I_log : forall c w, ok_call c -> I w -> I (set_calls (fun l => (l ++ [c])%list) w).
Hypothesis I_history : forall v w, I w -> I (set_session (with_history v) w).
Hypothesis I_ready : forall v w, I w -> I (set_session (with_ready v) w).
Hypothesis I_reset_chat : forall v w, I w -> I (set_session (with_reset_chat v) w).
Hypothesis I_greeting : forall filename,
  preserves I (ss_setdefault generated with_generated [greeting filename] ;;
               ss_setdefault past with_past [hey]).
Hypothesis I_reset : forall filename, preserves I (reset filename).
Hypothesis I_appends : forall (query answer : string),
  preserves I (ss_append "past" past with_past query ;;
               ss_append "generated" generated with_generated answer).
Hypothesis ok_store : forall filename, ok_call (CallStore filename).
Hypothesis ok_loader : forall data, ok_call (CallLoader data).
Hypothesis ok_embed : forall docs, ok_call (CallEmbed docs).
Hypothesis ok_dump : ok_call CallDump.
Hypothesis ok_load : forall blob, ok_call (CallLoad blob).
Hypothesis ok_model : forall m,
  ok_call (CallChatOpenAI {| temperature := 0.0; model_name := m |}).
Hypothesis ok_model_chain : forall m query h,
  ok_call (CallChain {| temperature := 0.0; model_name := m |} query h).

Lemma preserves_ret {A} (a : A) : preserves I (ret a).
Proof. intros w H. exact H. Qed.

Lemma preserves_raise {A} (e : Exception) : preserves I (raise (A:=A) e).
Proof. intros w H. exact H. Qed.

Lemma preserves_lift {A} (o : Outcome A) : preserves I (lift o).
Proof. intros w H. exact H. Qed.

Lemma preserves_get : preserves I get.
Proof. intros w H. exact H. Qed.

Lemma preserves_bind {A B} (m : M A) (k : A -> M B) :
  preserves I m -> (forall a, preserves I (k a)) -> preserves I (bind m k).
Proof.
  intros Hm Hk w H. unfold bind. specialize (Hm w H).
  destruct (m w) as [[a|e] w']; simpl in *; [now apply Hk|exact Hm].
Qed.

(** Sequencing is associative, so a block of two statements may be taken as
    one. *)
Lemma preserves_block {A B C} (m1 : M A) (m2 : M B) (k : M C) :
  preserves I (bind m1 (fun _ => m2)) -> preserves I k ->
  preserves I (bind m1 (fun _ => bind m2 (fun _ => k))).
Proof.
  intros H12 Hk w H. specialize (H12 w H). unfold bind in *.
  destruct (m1 w) as [[a|e] w1]; simpl in *; [|exact H12].
  destruct (m2 w1) as [[b|e] w2]; simpl in *; [now apply Hk|exact H12].
Qed.

Lemma preserves_try_except {A} (body : M A) (handler : Exception -> M A) :
  preserves I body -> (forall e, preserves I (handler e)) ->
  preserves I (try_except body handler).
Proof.
  intros Hb Hh w H. unfold try_except. specialize (Hb w H).
  destruct (body w) as [[a|e] w']; simpl in *; [exact Hb|now apply Hh].
Qed.

Lemma preserves_for_each {A} (xs : list A) (body : A -> M unit) :
  (forall x, preserves I (body x)) -> preserves I (for_each xs body).
Proof.
  intros Hb. induction xs as [|x xs IH]; simpl.
  - apply preserves_ret.
  - apply preserves_bind; [apply Hb|intros _; exact IH].
Qed.

Lemma preserves_log (c : Call) : ok_call c -> preserves I (log c).
Proof. intros Hc w H. now apply I_log. Qed.

Lemma preserves_print (p : Printed) : preserves I (print p).
Proof. intros w H. now apply I_stdout. Qed.

Lemma preserves_st_write (e : Element) : preserves I (st_write e).
Proof. intros w H. now apply I_page. Qed.

Lemma preserves_message text is_user key : preserves I (message text is_user key).
Proof. intros w H. now apply I_response. Qed.

Lemma preserves_ss_get {A} k (field : SessionState -> option A) :
  preserves I (ss_get k field).
Proof. intros w H. unfold ss_get, bind, get. now destruct (field (session w)). Qed.

Lemma preserves_index {A} (l : list A) i : preserves I (index l i).
Proof. intros w H. unfold index. now destruct (l !! i). Qed.

Lemma preserves_modify (f : World -> World) :
  (forall w, I w -> I (f w)) -> preserves I (modify f).
Proof. intros Hf w H. now apply Hf. Qed.

Ltac pres :=
  repeat match goal with
    | |- preserves _ (ret _) => apply preserves_ret
    | |- preserves _ (raise _) => apply preserves_raise
    | |- preserves _ (lift _) => apply preserves_lift
    | |- preserves _ get => apply preserves_get
    | |- preserves _ (print _) => apply preserves_print
    | |- preserves _ (st_write _) => apply preserves_st_write
    | |- preserves _ (message _ _ _) => apply preserves_message
    | |- preserves _ (ss_get _ _) => apply preserves_ss_get
    | |- preserves _ (index _ _) => apply preserves_index
    | |- preserves _ (log _) => apply preserves_log; solve [auto]
    | |- preserves _ (modify _) => apply preserves_modify; solve [auto]
    | |- preserves _ (bind _ _) => apply preserves_bind; [|intros ?]
    | |- preserves _ (if ?b then _ else _) => destruct b
    | |- preserves _ (match ?x with _ => _ end) => destruct x
    end.

Lemma preserves_storeDocEmbeds file filename :
  preserves I (storeDocEmbeds file filename).
Proof.
  unfold storeDocEmbeds, NamedTemporaryFile_write, PyPDFLoader_load_and_split,
    FAISS_from_documents, os_remove, open_wb_pickle_dump. pres.
Qed.

Lemma preserves_getDocEmbeds file filename :
  preserves I (getDocEmbeds file filename).
Proof.
  unfold getDocEmbeds, os_path_isfile, open_rb_pickle_load.
  pres. apply preserves_storeDocEmbeds.
Qed.

Lemma preserves_conversational_chat chain query :
  (forall q h, ok_call (CallChain (llm chain) q h)) ->
  preserves I (conversational_chat chain query).
Proof.
  intros Hllm. unfold conversational_chat, call_chain, ss_append, ss_set. pres.
Qed.

Lemma preserves_submit chain query :
  (forall q h, ok_call (CallChain (llm chain) q h)) ->
  preserves I (submit chain query).
Proof.
  intros Hllm. unfold submit. apply preserves_bind.
  - now apply preserves_conversational_chat.
  - intros output. apply I_appends.
Qed.

Lemma preserves_render : preserves I render.
Proof.
  unfold render. pres. apply preserves_for_each. intros i.
  unfold render_turn. pres.
Qed.

Lemma preserves_chat_block chain inp filename :
  (forall q h, ok_call (CallChain (llm chain) q h)) ->
  preserves I (chat_block chain inp filename).
Proof.
  intros Hllm. unfold chat_block. apply preserves_block; [apply I_greeting|].
  pose proof (preserves_submit chain (user_input inp) Hllm).
  pose proof (I_reset filename). pose proof preserves_render.
  pres; assumption.
Qed.

Lemma preserves_try_block inp f : preserves I (try_block inp f).
Proof.
  unfold try_block, ss_setdefault, ss_set. pres.
  - apply preserves_getDocEmbeds.
  - apply preserves_chat_block. intros q h. apply ok_model_chain.
Qed.

Lemma preserves_main inp : preserves I (main inp).
Proof.
  unfold main. pres.
  apply preserves_try_except; [apply preserves_try_block|intros e; pres].
Qed.

(** Every run keeps [I]. *)
Lemma script_run_preserves inp (w : World) : I w -> I (script_run inp w).
Proof.
  intros H. unfold script_run, clear_page. apply preserves_main. auto.
Qed.

End Preservation.

(** ** The two invariants, and whole runs *)
Section Invariants.
Context `{P : Providers}.

(** The two appends after a successful [conversational_chat]. *)
Lemma appends_eq (query answer : string) (w : World) :
  (ss_append "past" past with_past query ;;
   ss_append "generated" generated with_generated answer) w =
  match past (session w) with
  | None => (Raised (KeyError "past"), w)
  | Some p =>
      match generated (session w) with
      | None => (Raised (KeyError "generated"),
                 set_session (with_past (p ++ [query])) w)
      | Some g =>
          (Returned tt,
           set_session (fun s => with_generated (g ++ [answer])
                                   (with_past (p ++ [query]) s)) w)
      end
  end.
Proof.
  destruct w as [c t [hi rd rs g p] pg rc so cl].
  unfold ss_append, ss_get, ss_set, bind, get, ret, modify, raise. simpl.
  destruct p, g; reflexivity.
Qed.

Lemma greeting_defaults_paired (filename : string) (w : World) :
  paired (session w) = true ->
  paired (session (snd ((ss_setdefault generated with_generated [greeting filename] ;;
                         ss_setdefault past with_past [hey]) w))) = true.
Proof.
  intros H. rewrite greeting_defaults_eq.
  destruct w as [c t [hi rd rs g p] pg rc so cl]. unfold paired in *. simpl in *.
  destruct g, p; try discriminate; simpl; auto.
Qed.

Lemma appends_paired (query answer : string) (w : World) :
  paired (session w) = true ->
  paired (session (snd ((ss_append "past" past with_past query ;;
                         ss_append "generated" generated with_generated answer) w)))
  = true.
Proof.
  intros H. rewrite appends_eq.
  destruct w as [c t [hi rd rs g p] pg rc so cl]. unfold paired in *. simpl in *.
  destruct p as [p|], g as [g|]; try discriminate; simpl; [|assumption].
  apply Nat.eqb_eq in H. apply Nat.eqb_eq. rewrite !length_app. simpl. lia.
Qed.

(** The display lists stay paired through every run. *)
Lemma script_run_paired (inp : Widgets) (w : World) :
  paired (session w) = true -> paired (session (script_run inp w)) = true.
Proof.
  apply (script_run_preserves (fun w => paired (session w) = true)
           (fun _ => True)); auto.
  - intros filename w0. apply greeting_defaults_paired.
  - intros filename w0 _. now rewrite reset_eq.
  - intros query answer w0. apply appends_paired.
Qed.

(** Whatever the widgets say, a chat model a run names has temperature zero. *)
Lemma script_run_cold (inp : Widgets) (w : World) :
  forallb cold (calls w) = true -> forallb cold (calls (script_run inp w)) = true.
Proof.
  apply (script_run_preserves (fun w => forallb cold (calls w) = true)
           (fun c => cold c = true)); auto.
  - intros c w0 Hc H. destruct w0; simpl in *.
    rewrite forallb_app, H. simpl. now rewrite Hc.
  - intros filename w0 H. rewrite greeting_defaults_eq. now destruct w0.
  - intros filename w0 H. rewrite reset_eq. now destruct w0.
  - intros query answer w0 H. rewrite appends_eq.
    destruct (past (session w0)); [|assumption].
    destruct (generated (session w0)); now destruct w0.
Qed.

Lemma submit_paired (chain : Chain) (query : string) (w : World) :
  paired (session w) = true ->
  paired (session (snd (submit chain query w))) = true.
Proof.
  intros H. unfold submit. unfold bind at 1.
  rewrite conversational_chat_eq.
  destruct (history (session w)) as [h|]; [|exact H]. simpl.
  destruct (run_chain (llm chain) (retriever chain) query h) as [a|e];
    [|now destruct w].
  apply appends_paired. now destruct w.
Qed.

(** C10.  The lists [past] and [generated] go together.  From a session in
    which they are both absent or both present with the same length, the
    greeting initialisation, a submitted query (answered or not), the reset
    block and a whole run of the script each end in such a session again; a
    new session is one.  In such a session every index of [generated] is an
    index of [past], and the display loop does not raise [IndexError]. *)
Theorem display_lists_stay_paired
    (chain : Chain) (inp : Widgets) (filename query : string) (w : World) :
  paired (session w) = true ->
  paired new_session = true /\
  paired (session (snd ((ss_setdefault generated with_generated [greeting filename] ;;
                         ss_setdefault past with_past [hey]) w))) = true /\
  paired (session (snd (submit chain query w))) = true /\
  paired (session (snd (reset filename w))) = true /\
  paired (session (script_run inp w)) = true /\
  (forall g p,
     generated (session w) = Some g -> past (session w) = Some p ->
     length g = length p /\
     forall i, i < length g -> is_Some (p !! i) /\ is_Some (g !! i)) /\
  fst (render w) <> Raised IndexError.
Proof.
  intros H. split; [reflexivity|].
  split; [now apply greeting_defaults_paired|].
  split; [now apply submit_paired|].
  split; [now rewrite reset_eq|].
  split; [now apply script_run_paired|].
  assert (Hlen : forall g p,
             generated (session w) = Some g -> past (session w) = Some p ->
             length g = length p).
  { intros g p Hg Hp. unfold paired in H. rewrite Hg, Hp in H.
    now apply Nat.eqb_eq. }
  split.
  - intros g p Hg Hp. pose proof (Hlen g p Hg Hp) as Hl. split; [exact Hl|].
    intros i Hi. split; apply lookup_lt_is_Some_2; lia.
  - destruct (generated (session w)) as [g|] eqn:Hg.
    + destruct (past (session w)) as [p|] eqn:Hp.
      * rewrite (render_eq w g p Hg Hp (Hlen g p eq_refl eq_refl)). discriminate.
      * unfold paired in H. rewrite Hg, Hp in H. discriminate.
    + unfold render.
      rewrite (bind_raised _ _ _ _ _ (ss_get_none "generated" generated w Hg)).
      discriminate.
Qed.

(** C8 (the defect).  The slider value is read and then dropped: the run is
    the same wherever the slider stands, and every chat model a run
    constructs or calls has temperature [0.0]. *)
Theorem slider_temperature_never_reaches_the_model
    (inp : Widgets) (t : Q) (w : World) :
  main (with_TEMPERATURE t inp) w = main inp w /\
  forallb cold
    (calls (script_run (with_TEMPERATURE t inp) (set_calls (fun _ => []) w)))
  = true.
Proof.
  split; [reflexivity|]. apply script_run_cold. now destruct w.
Qed.

(** ** Whole runs *)

(** [getDocEmbeds] reads and writes files and the ghost log only. *)
Lemma getDocEmbeds_touches_files_only (file : bytes) (filename : string) (w : World) :
  session (snd (getDocEmbeds file filename w)) = session w /\
  page_elems (snd (getDocEmbeds file filename w)) = page_elems w /\
  response_container (snd (getDocEmbeds file filename w)) = response_container w /\
  stdout (snd (getDocEmbeds file filename w)) = stdout w.
Proof.
  destruct (cwd w !! pkl filename) as [blob|] eqn:Hc.
  - rewrite (getDocEmbeds_cached _ _ _ _ Hc). now destruct w.
  - rewrite (getDocEmbeds_uncached _ _ _ Hc), storeDocEmbeds_eq. simpl.
    destruct (load_and_split file) as [data|e]; [|now destruct w].
    destruct (from_documents data) as [v|e]; [|now destruct w].
    destruct (snd (pickle_dump v)); [now destruct w|].
    replace (cwd _ !! pkl filename) with (Some (fst (pickle_dump v)))
      by (destruct w; simpl; now rewrite lookup_insert_eq).
    now destruct w.
Qed.

(** What it returns depends on the files alone. *)
Lemma getDocEmbeds_outcome_by_files (file : bytes) (filename : string) (w w' : World) :
  cwd w' = cwd w -> tmpdir w' = tmpdir w ->
  fst (getDocEmbeds file filename w') = fst (getDocEmbeds file filename w).
Proof.
  intros Hcwd Htmp.
  destruct (cwd w !! pkl filename) as [blob|] eqn:Hc.
  - rewrite (getDocEmbeds_cached _ _ w _ Hc).
    now rewrite (getDocEmbeds_cached _ _ w' blob) by (now rewrite Hcwd).
  - rewrite (getDocEmbeds_uncached _ _ w Hc).
    rewrite (getDocEmbeds_uncached _ _ w') by (now rewrite Hcwd).
    rewrite !storeDocEmbeds_eq. simpl.
    destruct (load_and_split file) as [data|e]; [|reflexivity].
    destruct (from_documents data) as [v|e]; [|reflexivity].
    destruct (snd (pickle_dump v)); [reflexivity|].
    replace (cwd (set_calls _ (set_cwd _ w)) !! pkl filename)
      with (Some (fst (pickle_dump v)))
      by (destruct w; simpl; now rewrite lookup_insert_eq).
    replace (cwd (set_calls _ (set_cwd _ w')) !! pkl filename)
      with (Some (fst (pickle_dump v)))
      by (destruct w'; simpl; now rewrite lookup_insert_eq).
    reflexivity.
Qed.

(** The display loop writes to the chat container only. *)
Lemma render_keeps_session (w : World) :
  session (snd (render w)) = session w /\
  page_elems (snd (render w)) = page_elems w /\
  cwd (snd (render w)) = cwd w.
Proof.
  pose proof (preserves_render
                (fun w' => session w' = session w /\ page_elems w' = page_elems w
                           /\ cwd w' = cwd w)) as H.
  apply H; [|auto]. intros f w' Hw'. now destruct w'.
Qed.

(** C5.  The reset block always returns, and leaves [history] empty and the
    two display lists holding the greeting turn alone, whatever they held
    before; it cannot stop half way, since none of its statements can raise.
    A run in which the reset flag is up (by a click on "Reset Chat" in this
    run, or left up by an earlier one), no query is submitted and the store is
    obtained ends with an empty history, and the chat display shows exactly
    the greeting turn. *)
Theorem reset_leaves_only_the_greeting
    (inp : Widgets) (f : UploadedFile) (w : World) (v : VectorStore) :
  user_api_key inp <> "" ->
  uploaded_file inp = Some f ->
  reset_button inp = true \/ reset_chat (session w) = Some true ->
  submit_button inp && negb (bool_decide (user_input inp = "")) = false ->
  fst (getDocEmbeds (content f) (name f) w) = Returned v ->
  (forall w0, reset (name f) w0 =
     (Returned tt, set_response (fun _ => []) (set_session (cleared (name f)) w0))) /\
  session (script_run inp w)
  = {| history := Some []; ready := Some true; reset_chat := Some false;
       generated := Some [greeting (name f)]; past := Some [hey] |} /\
  response_container (script_run inp w) = greeting_turn (name f).
Proof.
  intros Hkey Hfile Hflag Hsend Hget. split; [apply reset_eq|].
  unfold script_run.
  rewrite (main_eq inp f _ Hkey Hfile), try_block_eq.
  set (w0 := set_session (keys_after (reset_button inp)) _).
  assert (Hget0 : fst (getDocEmbeds (content f) (name f) w0) = Returned v).
  { rewrite <- Hget. apply getDocEmbeds_outcome_by_files; now destruct w. }
  destruct (getDocEmbeds_touches_files_only (content f) (name f) w0)
    as (Hs & _ & _ & _).
  destruct (getDocEmbeds (content f) (name f) w0) as [[v'|e] w1];
    simpl in Hget0, Hs; [|discriminate].
  assert (Hflag1 : reset_chat (session w1) = Some true).
  { rewrite Hs. subst w0. destruct w as [c t [hi rd rs g p] pg rc so cl]. simpl in *.
    destruct Hflag as [-> | ->]; [reflexivity|]. now destruct (reset_button inp). }
  cbv zeta. rewrite (chat_block_eq _ _ _ _ true) by (now destruct w1).
  cbv zeta. rewrite Hsend.
  rewrite (render_eq _ [greeting (name f)] [hey]) by (now destruct w1).
  destruct w1 as [c1 t1 [hi1 rd1 rs1 g1 p1] pg1 rc1 so1 cl1]. simpl. split; reflexivity.
Qed.

(** A run in which a query is submitted and the chain call raises: the run
    ends in the session, and with the files, of the same run without the
    query; the page shows the error text, and the chat display nothing. *)
Lemma failed_ask_run (inp : Widgets) (f : UploadedFile) (w : World)
    (v : VectorStore) (e : Exception) :
  user_api_key inp <> "" ->
  uploaded_file inp = Some f ->
  submit_button inp = true ->
  user_input inp <> "" ->
  fst (getDocEmbeds (content f) (name f) w) = Returned v ->
  (forall h, run_chain {| temperature := 0.0; model_name := MODEL inp |} v
               (user_input inp) h = Raised e) ->
  session (script_run inp w) = session (script_run (without_submit inp) w) /\
  cwd (script_run inp w) = cwd (script_run (without_submit inp) w) /\
  page_elems (script_run inp w)
  = [FileExpander (name f); ErrorBox ("Error: " ++ str e); AboutBox] /\
  response_container (script_run inp w) = [].
Proof.
  intros Hkey Hfile Hsend Hquery Hget Hfail. unfold script_run.
  rewrite (main_eq inp f _ Hkey Hfile), (main_eq (without_submit inp) f _ Hkey Hfile).
  rewrite !try_block_eq. simpl reset_button. simpl MODEL.
  set (w0 := set_session (keys_after (reset_button inp)) _).
  assert (Hget0 : fst (getDocEmbeds (content f) (name f) w0) = Returned v).
  { rewrite <- Hget. apply getDocEmbeds_outcome_by_files; now destruct w. }
  destruct (getDocEmbeds_touches_files_only (content f) (name f) w0)
    as (Hs & Hpg & Hrc & _).
  destruct (getDocEmbeds (content f) (name f) w0) as [[v'|e'] w1];
    simpl in Hget0, Hs, Hpg, Hrc; [|discriminate].
  injection Hget0 as ->.
  assert (Hflag1 : exists flag, reset_chat (session w1) = Some flag).
  { rewrite Hs. subst w0. destruct w as [c t s pg rc so cl]. simpl. eauto. }
  destruct Hflag1 as [flag Hflag1].
  cbv zeta.
  rewrite (chat_block_eq _ inp _ _ flag) by (now destruct w1).
  rewrite (chat_block_eq _ (without_submit inp) _ _ flag) by (now destruct w1).
  cbv zeta. simpl submit_button. rewrite Hsend.
  rewrite (bool_decide_eq_false_2 _ Hquery). simpl andb. cbv iota.
  set (w3 := if flag then _ else _).
  assert (Hh : exists h, history (session w3) = Some h).
  { subst w3. destruct flag; [now exists []|].
    exists (default [] (history (session w))).
    destruct w1; simpl in *. rewrite Hs. subst w0. now destruct w. }
  destruct Hh as [h Hh].
  assert (Hpg3 : page_elems w3 = [FileExpander (name f)]).
  { subst w3. destruct flag; destruct w1; simpl in *; rewrite Hpg; subst w0;
      now destruct w. }
  assert (Hrc3 : response_container w3 = []).
  { subst w3. destruct flag; [now destruct w1|].
    destruct w1; simpl in *. rewrite Hrc. subst w0. now destruct w. }
  assert (Hsubmit : submit {| llm := {| temperature := 0.0; model_name := MODEL inp |};
                              retriever := v |} (user_input inp) w3
            = (Raised e,
               set_calls (fun l => (l ++ [CallChain
                  {| temperature := 0.0; model_name := MODEL inp |}
                  (user_input inp) h])%list) w3)).
  { unfold submit. apply bind_raised.
    rewrite conversational_chat_eq, Hh. simpl. now rewrite Hfail. }
  rewrite Hsubmit.
  destruct (render_keeps_session w3) as (Hrs & Hrp & Hrcwd).
  destruct (render w3) as [[[]|e2] w5]; simpl in Hrs, Hrp, Hrcwd; simpl;
    rewrite ?Hrs, ?Hrcwd; destruct w3; simpl in *; subst; repeat split.
Qed.

(** C6 (as the code has it).  When the cache entry does not deserialize,
    [getDocEmbeds] raises the exception of [pickle.load]: the builder and the
    embedding provider are not entered and the entry stays as it is, so a
    later call for the same name fails the same way, whatever file is
    uploaded.  The run shows the error text through the [except] clause of
    [main], builds nothing, and does not reach the chat. *)
Theorem getDocEmbeds_corrupt_entry_raises
    (inp : Widgets) (f : UploadedFile) (w : World) (blob : bytes) (e : Exception) :
  user_api_key inp <> "" ->
  uploaded_file inp = Some f ->
  cwd w !! pkl (name f) = Some blob ->
  pickle_load blob = Raised e ->
  let w' := set_calls (fun l => (l ++ [CallLoad blob])%list) w in
  getDocEmbeds (content f) (name f) w = (Raised e, w') /\
  builder_runs w' = builder_runs w /\
  embed_calls w' = embed_calls w /\
  cwd w' = cwd w /\ tmpdir w' = tmpdir w /\ session w' = session w /\
  (forall file2, fst (getDocEmbeds file2 (name f) w') = Raised e) /\
  page_elems (script_run inp w)
  = [FileExpander (name f); ErrorBox ("Error: " ++ str e); AboutBox] /\
  response_container (script_run inp w) = [] /\
  cwd (script_run inp w) = cwd w /\
  builder_runs (script_run inp w) = builder_runs w /\
  embed_calls (script_run inp w) = embed_calls w /\
  session (script_run inp w) = keys_after (reset_button inp) (session w).
Proof.
  intros Hkey Hfile Hc Hload w'.
  assert (Hcall : getDocEmbeds (content f) (name f) w = (Raised e, w')).
  { rewrite (getDocEmbeds_cached _ _ _ _ Hc). now rewrite Hload. }
  split; [exact Hcall|]. subst w'.
  rewrite builder_runs_log, embed_calls_log. simpl.
  split; [lia|]. split; [lia|].
  split; [now destruct w|]. split; [now destruct w|]. split; [now destruct w|].
  split.
  { intros file2. rewrite (getDocEmbeds_cached _ _ _ blob) by (now destruct w).
    now rewrite Hload. }
  unfold script_run.
  rewrite (main_eq inp f _ Hkey Hfile), try_block_eq.
  rewrite (getDocEmbeds_cached _ _ _ blob) by (now destruct w).
  rewrite Hload. unfold builder_runs, embed_calls.
  destruct w; simpl. rewrite !filter_app, !length_app. simpl.
  repeat split; lia.
Qed.

End Invariants.

(** * Further properties of the script *)

Section Runs.
Context `{P : Providers}.

(** Nothing in the [try] block writes to the page outside the chat
    container. *)
Lemma try_block_keeps_page (inp : Widgets) (f : UploadedFile) (w : World) :
  page_elems (snd (try_block inp f w)) = page_elems w.
Proof.
  apply (preserves_try_block (fun w' => page_elems w' = page_elems w)
           (fun _ => True)); auto.
  - intros filename w0 H. rewrite greeting_defaults_eq. now destruct w0.
  - intros filename w0 H. rewrite reset_eq. now destruct w0.
  - intros query answer w0 H. rewrite appends_eq.
    destruct (past (session w0)); [|assumption].
    destruct (generated (session w0)); now destruct w0.
Qed.

(** The page a run leaves, by the key and the upload. *)
Lemma script_run_page_shape (inp : Widgets) (w : World) :
  exists shown,
    page_elems (script_run inp w) = (shown ++ [AboutBox])%list /\
    (user_api_key inp = "" /\ shown = [Markdown enter_key_html] \/
     user_api_key inp <> "" /\
     (uploaded_file inp = None /\ shown = [SidebarInfo upload_hint] \/
      exists f, uploaded_file inp = Some f /\
        (shown = [FileExpander (name f)] \/
         exists e, shown = [FileExpander (name f); ErrorBox ("Error: " ++ str e)]))).
Proof.
  unfold script_run.
  destruct (decide (user_api_key inp = "")) as [Hkey|Hkey].
  - exists [Markdown enter_key_html]. split; [|auto].
    unfold main, bind, st_write, modify. rewrite bool_decide_eq_true_2 by exact Hkey.
    now destruct w.
  - destruct (uploaded_file inp) as [f|] eqn:Hfile.
    + rewrite (main_eq inp f _ Hkey Hfile).
      pose proof (try_block_keeps_page inp f
                    (set_page (fun l => (l ++ [FileExpander (name f)])%list)
                       (clear_page w))) as Hpage.
      destruct (try_block inp f _) as [[[]|e] w1]; simpl in Hpage.
      * exists [FileExpander (name f)]. split; [|eauto 8].
        destruct w1, w; simpl in *. now rewrite Hpage.
      * exists [FileExpander (name f); ErrorBox ("Error: " ++ str e)].
        split; [|eauto 10]. destruct w1, w; simpl in *. now rewrite Hpage.
    + exists [SidebarInfo upload_hint]. split; [|auto].
      unfold main, bind, st_write, modify, ret.
      rewrite bool_decide_eq_false_2 by exact Hkey. rewrite Hfile.
      now destruct w.
Qed.

(** X2.  Without a key, or without an upload, a run calls no collaborator,
    touches no file, prints nothing, shows no chat and leaves the session
    dictionary as it is: taking the upload away hides the conversation and
    keeps it. *)
Theorem run_without_key_or_upload_is_inert (inp : Widgets) (w : World) :
  user_api_key inp = "" \/ uploaded_file inp = None ->
  session (script_run inp w) = session w /\
  cwd (script_run inp w) = cwd w /\
  tmpdir (script_run inp w) = tmpdir w /\
  calls (script_run inp w) = calls w /\
  stdout (script_run inp w) = stdout w /\
  response_container (script_run inp w) = [].
Proof.
  intros H. unfold script_run, main, bind, st_write, modify, ret.
  case_bool_decide as Hkey; [now destruct w|].
  destruct H as [H|H]; [contradiction|]. rewrite H. now destruct w.
Qed.

(** X3.  The key [main] works with is the environment's when that is set and
    not empty, whatever was typed, and the typed one otherwise; an
    environment variable set to the empty string counts as unset.  A run asks
    for a key exactly when the environment has none and none was typed. *)
Theorem key_prompt_iff_no_key_anywhere
    (getenv : option string) (text_input : string) (inp : Widgets) (w : World) :
  user_api_key inp = fst (load_user_api_key getenv text_input) ->
  (forall k, getenv = Some k -> k <> "" ->
     user_api_key inp = k /\
     snd (load_user_api_key getenv text_input) = Some api_key_notice) /\
  (getenv = None \/ getenv = Some "" ->
     user_api_key inp = text_input /\
     snd (load_user_api_key getenv text_input) = None) /\
  (page_elems (script_run inp w) = [Markdown enter_key_html; AboutBox]
   <-> (getenv = None \/ getenv = Some "") /\ text_input = "").
Proof.
  intros Hkey.
  assert (Hprompt : page_elems (script_run inp w) = [Markdown enter_key_html; AboutBox]
                    <-> user_api_key inp = "").
  { split.
    - intros Hpage.
      destruct (script_run_page_shape inp w) as (shown & Hshown & Hshape).
      rewrite Hpage in Hshown.
      destruct Hshape as [[? _]|[_ [[_ ->]|(f & _ & [->|[e ->]])]]];
        [assumption|discriminate..].
    - intros H. unfold script_run, main, bind, st_write, modify.
      rewrite bool_decide_eq_true_2 by exact H. now destruct w. }
  unfold load_user_api_key in *.
  split; [|split].
  - intros k -> Hk. rewrite bool_decide_eq_false_2 in * by exact Hk. auto.
  - intros [-> | ->]; auto.
  - rewrite Hprompt, Hkey. destruct getenv as [k|]; simpl.
    + case_bool_decide as Hk; simpl.
      * subst k. split; [auto|now intros [_ ?]].
      * split; [contradiction|]. intros [[?|[= ?]] _]; [discriminate|contradiction].
    + split; [auto|now intros [_ ?]].
Qed.

(** A run whose call of [getDocEmbeds] raises stops there. *)
Lemma run_stops_at_getDocEmbeds (inp : Widgets) (f : UploadedFile) (w : World)
    (e : Exception) :
  user_api_key inp <> "" ->
  uploaded_file inp = Some f ->
  fst (getDocEmbeds (content f) (name f) w) = Raised e ->
  exists w1,
    session w1 = keys_after (reset_button inp) (session w) /\
    page_elems w1 = [FileExpander (name f)] /\
    response_container w1 = [] /\
    stdout w1 = stdout w /\
    main inp (clear_page w) =
    (Returned tt,
     set_page (fun l => (l ++ [AboutBox])%list)
       (set_page (fun l => (l ++ [ErrorBox ("Error: " ++ str e)])%list) w1)).
Proof.
  intros Hkey Hfile Hget.
  rewrite (main_eq inp f _ Hkey Hfile), try_block_eq.
  set (w0 := set_session (keys_after (reset_button inp)) _).
  assert (Hget0 : fst (getDocEmbeds (content f) (name f) w0) = Raised e).
  { rewrite <- Hget. apply getDocEmbeds_outcome_by_files; now destruct w. }
  destruct (getDocEmbeds_touches_files_only (content f) (name f) w0)
    as (Hs & Hpg & Hrc & Hso).
  destruct (getDocEmbeds (content f) (name f) w0) as [[v|e'] w1];
    simpl in Hget0, Hs, Hpg, Hrc, Hso; [discriminate|].
  injection Hget0 as ->. exists w1.
  rewrite Hs, Hpg, Hrc, Hso. subst w0. now destruct w.
Qed.

(** A run whose call of [getDocEmbeds] returns reaches the chat: [w3] is the
    world after the greeting initialisation and the reset block, where the
    submitted query, if any, is handled and the chat is displayed. *)
Lemma run_reaches_chat (inp : Widgets) (f : UploadedFile) (w : World)
    (v : VectorStore) :
  user_api_key inp <> "" ->
  uploaded_file inp = Some f ->
  fst (getDocEmbeds (content f) (name f) w) = Returned v ->
  let flag := if reset_button inp then true
              else default false (reset_chat (session w)) in
  let chain := {| llm := {| temperature := 0.0; model_name := MODEL inp |};
                  retriever := v |} in
  exists w3,
    session w3
    = (if flag then cleared (name f) else id)
        (greeted (name f)
           (with_ready true (keys_after (reset_button inp) (session w)))) /\
    page_elems w3 = [FileExpander (name f)] /\
    response_container w3 = [] /\
    stdout w3 = stdout w /\
    main inp (clear_page w) =
    match (if submit_button inp && negb (bool_decide (user_input inp = ""))
           then match submit chain (user_input inp) w3 with
                | (Returned _, w4) => render w4
                | (Raised e, w4) => (Raised e, w4)
                end
           else render w3) with
    | (Returned _, w5) =>
        (Returned tt, set_page (fun l => (l ++ [AboutBox])%list) w5)
    | (Raised e, w5) =>
        (Returned tt,
         set_page (fun l => (l ++ [AboutBox])%list)
           (set_page (fun l => (l ++ [ErrorBox ("Error: " ++ str e)])%list) w5))
    end.
Proof.
  intros Hkey Hfile Hget flag chain.
  rewrite (main_eq inp f _ Hkey Hfile), try_block_eq.
  set (w0 := set_session (keys_after (reset_button inp)) _).
  assert (Hget0 : fst (getDocEmbeds (content f) (name f) w0) = Returned v).
  { rewrite <- Hget. apply getDocEmbeds_outcome_by_files; now destruct w. }
  destruct (getDocEmbeds_touches_files_only (content f) (name f) w0)
    as (Hs & Hpg & Hrc & Hso).
  destruct (getDocEmbeds (content f) (name f) w0) as [[v'|e'] w1];
    simpl in Hget0, Hs, Hpg, Hrc, Hso; [|discriminate].
  injection Hget0 as ->.
  assert (Hflag : reset_chat (session w1) = Some flag).
  { rewrite Hs. subst w0 flag. destruct w as [c t s pg rc so cl]. simpl.
    now destruct (reset_button inp). }
  cbv zeta. rewrite (chat_block_eq _ inp _ _ flag) by (now destruct w1).
  cbv zeta.
  match goal with |- context [if flag then ?a else ?b] =>
    exists (if flag then a else b) end.
  split; [|split; [|split; [|split]]].
  - destruct flag; destruct w1 as [c1 t1 s1 pg1 rc1 so1 cl1]; simpl in *;
      rewrite Hs; subst w0; now destruct w.
  - destruct flag; destruct w1; simpl in *; rewrite Hpg; subst w0; now destruct w.
  - destruct flag; [now destruct w1|].
    destruct w1; simpl in *. rewrite Hrc. subst w0. now destruct w.
  - destruct flag; destruct w1; simpl in *; rewrite Hso; subst w0; now destruct w.
  - reflexivity.
Qed.

(** The display loop writes to the chat container and nowhere else. *)
Lemma render_touches_container_only (w : World) :
  session (snd (render w)) = session w /\
  page_elems (snd (render w)) = page_elems w /\
  stdout (snd (render w)) = stdout w /\
  calls (snd (render w)) = calls w /\
  cwd (snd (render w)) = cwd w /\
  tmpdir (snd (render w)) = tmpdir w.
Proof.
  pose proof (preserves_render
                (fun w' => session w' = session w /\ page_elems w' = page_elems w /\
                           stdout w' = stdout w /\ calls w' = calls w /\
                           cwd w' = cwd w /\ tmpdir w' = tmpdir w)) as H.
  apply H; [|repeat split]. intros f w' Hw'. now destruct w'.
Qed.

(** The submit step when the chain answers and both display lists exist. *)
Lemma submit_returns (chain : Chain) (query answer : string) (w : World)
    (h : list Turn) (p g : list string) :
  history (session w) = Some h ->
  past (session w) = Some p ->
  generated (session w) = Some g ->
  run_chain (llm chain) (retriever chain) query h = Returned answer ->
  submit chain query w =
  (Returned tt,
   set_session (fun s => with_generated (g ++ [answer])
                           (with_past (p ++ [query])
                              (with_history (h ++ [(query, answer)]) s)))
     (set_stdout (fun l => (l ++ [PStr "Log: ";
                                  PHistory (h ++ [(query, answer)])])%list)
        (set_calls (fun l => (l ++ [CallChain (llm chain) query h])%list) w))).
Proof.
  intros Hh Hp Hg Hrun. unfold submit. unfold bind at 1.
  rewrite conversational_chat_eq, Hh. cbv zeta. rewrite Hrun.
  rewrite appends_eq.
  destruct w as [c t [hi rd rs g0 p0] pg rc so cl]. simpl in *. now subst.
Qed.

(** X4.  A run with a query submitted, no reset pending and a chain that
    answers: the chain is called once, with the question and the history as
    it was before the question; the answer's turn is added at the end of
    [history], [past] and [generated]; the log lines go to standard output;
    and the chat shows the whole conversation, the new turn last. *)
Theorem answered_query_run (inp : Widgets) (f : UploadedFile) (w : World)
    (v : VectorStore) (answer : string) :
  user_api_key inp <> "" ->
  uploaded_file inp = Some f ->
  fst (getDocEmbeds (content f) (name f) w) = Returned v ->
  submit_button inp = true ->
  user_input inp <> "" ->
  reset_button inp = false ->
  default false (reset_chat (session w)) = false ->
  let query := user_input inp in
  let chat_model := {| temperature := 0.0; model_name := MODEL inp |} in
  let h := default [] (history (session w)) in
  let p := default [hey] (past (session w)) in
  let g := default [greeting (name f)] (generated (session w)) in
  run_chain chat_model v query h = Returned answer ->
  history (session (script_run inp w)) = Some (h ++ [(query, answer)])%list /\
  past (session (script_run inp w)) = Some (p ++ [query])%list /\
  generated (session (script_run inp w)) = Some (g ++ [answer])%list /\
  last (calls (script_run inp w)) = Some (CallChain chat_model query h) /\
  stdout (script_run inp w)
  = (stdout w ++ [PStr "Log: "; PHistory (h ++ [(query, answer)])])%list /\
  (length g = length p ->
   page_elems (script_run inp w) = [FileExpander (name f); AboutBox] /\
   response_container (script_run inp w)
   = flat_map (turn_at (p ++ [query])%list (g ++ [answer])%list) (seq 0 (S (length g)))).
Proof.
  intros Hkey Hfile Hget Hsend Hquery Hclick Hflag query chat_model h p g Hrun.
  subst query chat_model.
  destruct (run_reaches_chat inp f w v Hkey Hfile Hget)
    as (w3 & Hs3 & Hpg3 & Hrc3 & Hso3 & Hmain).
  rewrite Hclick, Hflag in Hs3. cbv zeta in Hmain.
  rewrite Hsend, (bool_decide_eq_false_2 _ Hquery) in Hmain. simpl andb in Hmain.
  cbv iota in Hmain.
  assert (Hh3 : history (session w3) = Some h /\ past (session w3) = Some p /\
                generated (session w3) = Some g).
  { rewrite Hs3. subst h p g. destruct (session w) as [hi rd rs g0 p0]. simpl.
    now destruct hi, g0, p0. }
  destruct Hh3 as (Hh3 & Hp3 & Hg3).
  rewrite (submit_returns
             {| llm := {| temperature := 0.0; model_name := MODEL inp |};
                retriever := v |} (user_input inp) answer
             w3 h p g Hh3 Hp3 Hg3 Hrun) in Hmain.
  set (w4 := set_session _ _) in Hmain.
  unfold script_run. rewrite Hmain.
  destruct (render_touches_container_only w4) as (Hrs & Hrp & Hro & Hrcl & _ & _).
  assert (Hsess : session w4
                  = with_generated (g ++ [answer])
                      (with_past (p ++ [user_input inp])
                         (with_history (h ++ [(user_input inp, answer)])
                            (session w3))))
    by (subst w4; now destruct w3).
  assert (Hcalls : calls w4
                   = (calls w3 ++ [CallChain {| temperature := 0.0;
                                                model_name := MODEL inp |}
                                     (user_input inp) h])%list)
    by (subst w4; now destruct w3).
  assert (Hout : stdout w4
                 = (stdout w ++ [PStr "Log: ";
                                 PHistory (h ++ [(user_input inp, answer)])])%list)
    by (subst w4; rewrite <- Hso3; now destruct w3).
  assert (Hfinal : forall r w5, r = render w4 ->
            w5 = snd match r with
                     | (Returned _, w5) =>
                         (Returned tt, set_page (fun l => (l ++ [AboutBox])%list) w5)
                     | (Raised e, w5) =>
                         (Returned tt,
                          set_page (fun l => (l ++ [AboutBox])%list)
                            (set_page (fun l => (l ++ [ErrorBox ("Error: " ++ str e)])%list)
                               w5))
                     end ->
            session w5 = session w4 /\ calls w5 = calls w4 /\ stdout w5 = stdout w4).
  { intros r w5 -> ->. destruct (render w4) as [[[]|e] w6]; simpl in *;
      rewrite <- Hrs, <- Hrcl, <- Hro; now destruct w6. }
  destruct (Hfinal _ _ eq_refl eq_refl) as (-> & -> & ->).
  rewrite Hsess, Hcalls, Hout, last_snoc. simpl.
  repeat split.
  - rewrite (render_eq w4 (g ++ [answer])%list (p ++ [user_input inp])%list)
      by (rewrite ?Hsess; simpl; rewrite ?length_app; simpl; congruence).
    subst w4. destruct w3; simpl in *. now rewrite Hpg3.
  - rewrite (render_eq w4 (g ++ [answer])%list (p ++ [user_input inp])%list)
      by (rewrite ?Hsess; simpl; rewrite ?length_app; simpl; congruence).
    subst w4. destruct w3; simpl in *. rewrite Hrc3, length_app. simpl.
    now rewrite Nat.add_1_r.
Qed.

(** X5.  A run with a store obtained, no query submitted and no reset
    pending leaves the conversation as it is and shows all of it, in order,
    the user's message before the answer at every index.  Lists that exist
    are kept whatever file is uploaded: after an upload under another name
    the conversation, its first greeting included, is still the old one. *)
Theorem idle_run_shows_the_conversation (inp : Widgets) (f : UploadedFile)
    (w : World) (v : VectorStore) :
  user_api_key inp <> "" ->
  uploaded_file inp = Some f ->
  fst (getDocEmbeds (content f) (name f) w) = Returned v ->
  submit_button inp && negb (bool_decide (user_input inp = "")) = false ->
  reset_button inp = false ->
  default false (reset_chat (session w)) = false ->
  let p := default [hey] (past (session w)) in
  let g := default [greeting (name f)] (generated (session w)) in
  length g = length p ->
  history (session (script_run inp w)) = Some (default [] (history (session w))) /\
  past (session (script_run inp w)) = Some p /\
  generated (session (script_run inp w)) = Some g /\
  ready (session (script_run inp w)) = Some true /\
  stdout (script_run inp w) = stdout w /\
  page_elems (script_run inp w) = [FileExpander (name f); AboutBox] /\
  response_container (script_run inp w)
  = flat_map (turn_at p g) (seq 0 (length g)).
Proof.
  intros Hkey Hfile Hget Hsend Hclick Hflag p g Hlen.
  destruct (run_reaches_chat inp f w v Hkey Hfile Hget)
    as (w3 & Hs3 & Hpg3 & Hrc3 & Hso3 & Hmain).
  rewrite Hclick, Hflag in Hs3. cbv zeta in Hmain. rewrite Hsend in Hmain.
  assert (Hh3 : history (session w3) = Some (default [] (history (session w))) /\
                past (session w3) = Some p /\ generated (session w3) = Some g /\
                ready (session w3) = Some true).
  { rewrite Hs3. subst p g. destruct (session w) as [hi rd rs g0 p0]. simpl.
    now destruct hi, g0, p0. }
  destruct Hh3 as (Hh3 & Hp3 & Hg3 & Hr3).
  rewrite (render_eq w3 g p Hg3 Hp3 Hlen) in Hmain.
  unfold script_run. rewrite Hmain.
  destruct w3; simpl in *. subst. repeat split; assumption.
Qed.

(** X6.  When [getDocEmbeds] raises, for whatever reason, the run shows the
    error text and stops before the chat: [ready] is not raised, the
    conversation is not touched and not shown, and a click on "Reset Chat"
    made in this run stays pending in the session. *)
Theorem failed_indexing_run (inp : Widgets) (f : UploadedFile) (w : World)
    (e : Exception) :
  user_api_key inp <> "" ->
  uploaded_file inp = Some f ->
  fst (getDocEmbeds (content f) (name f) w) = Raised e ->
  page_elems (script_run inp w)
  = [FileExpander (name f); ErrorBox ("Error: " ++ str e); AboutBox] /\
  response_container (script_run inp w) = [] /\
  stdout (script_run inp w) = stdout w /\
  ready (session (script_run inp w)) = Some (default false (ready (session w))) /\
  history (session (script_run inp w)) = Some (default [] (history (session w))) /\
  past (session (script_run inp w)) = past (session w) /\
  generated (session (script_run inp w)) = generated (session w) /\
  (reset_button inp = true ->
   reset_chat (session (script_run inp w)) = Some true).
Proof.
  intros Hkey Hfile Hget.
  destruct (run_stops_at_getDocEmbeds inp f w e Hkey Hfile Hget)
    as (w1 & Hs & Hpg & Hrc & Hso & Hmain).
  unfold script_run. rewrite Hmain.
  destruct w1; simpl in *. subst. repeat split.
  now intros ->.
Qed.



End Runs.

Section Cache.
Context `{P : Providers}.

(** X8.  The cache is keyed by the file name alone.  Once a call for a name
    has returned, a call for that name with any other bytes returns the same
    store while the entry is in place: the new bytes are never written to a
    temporary file, loaded or embedded, and the entry is not rewritten. *)
Theorem cached_store_ignores_the_upload
    (file1 file2 : bytes) (filename : string) (w w1 : World) (v : VectorStore) :
  getDocEmbeds file1 filename w = (Returned v, w1) ->
  forall w1',
    cwd w1' !! pkl filename = cwd w1 !! pkl filename ->
    exists blob,
      cwd w1' !! pkl filename = Some blob /\
      getDocEmbeds file2 filename w1'
      = (Returned v, set_calls (fun l => (l ++ [CallLoad blob])%list) w1') /\
      cwd (snd (getDocEmbeds file2 filename w1')) = cwd w1' /\
      tmpdir (snd (getDocEmbeds file2 filename w1')) = tmpdir w1' /\
      calls (snd (getDocEmbeds file2 filename w1')) = (calls w1' ++ [CallLoad blob])%list.
Proof.
  intros Hcall w1' Hsame.
  assert (Hentry : exists blob,
             cwd w1 !! pkl filename = Some blob /\ pickle_load blob = Returned v).
  { destruct (cwd w !! pkl filename) as [blob|] eqn:Hc.
    - rewrite (getDocEmbeds_cached _ _ _ _ Hc) in Hcall.
      injection Hcall as Hv <-. exists blob. now destruct w.
    - destruct (getDocEmbeds_built _ _ _ _ _ Hc Hcall)
        as (data & built & _ & _ & _ & Hv & ->).
      exists (fst (pickle_dump built)). split; [|exact Hv].
      destruct w; simpl. apply lookup_insert_eq. }
  destruct Hentry as (blob & Hblob & Hv). rewrite Hblob in Hsame.
  exists blob. rewrite (getDocEmbeds_cached _ _ _ _ Hsame), Hv.
  now destruct w1'.
Qed.

(** X9.  When [pickle.dump] raises, what it had written stays on disk under
    the entry's name.  The call raises that exception, and from then on the
    partial file is taken for the cache entry: later calls for that name do
    not rebuild, whatever is uploaded, and return what [pickle.load] makes of
    the partial bytes. *)
Theorem failed_dump_leaves_a_partial_entry
    (file : bytes) (filename : string) (w : World)
    (data : list Document) (built : VectorStore) (e : Exception) :
  cwd w !! pkl filename = None ->
  load_and_split file = Returned data ->
  from_documents data = Returned built ->
  snd (pickle_dump built) = Some e ->
  let w1 := snd (getDocEmbeds file filename w) in
  fst (getDocEmbeds file filename w) = Raised e /\
  cwd w1 !! pkl filename = Some (fst (pickle_dump built)) /\
  tmpdir w1 = tmpdir w /\
  forall file2,
    fst (getDocEmbeds file2 filename w1) = pickle_load (fst (pickle_dump built)) /\
    builder_runs (snd (getDocEmbeds file2 filename w1)) = builder_runs w1 /\
    embed_calls (snd (getDocEmbeds file2 filename w1)) = embed_calls w1.
Proof.
  intros Hc Hl Hf Herr w1. subst w1.
  rewrite (getDocEmbeds_uncached _ _ _ Hc), storeDocEmbeds_eq. simpl.
  rewrite Hl, Hf, Herr. simpl.
  assert (Hentry : cwd (set_calls
                      (fun l => (l ++ [CallStore filename; CallLoader file;
                                       CallEmbed data; CallDump])%list)
                      (set_cwd (insert (pkl filename) (fst (pickle_dump built))) w))
                     !! pkl filename = Some (fst (pickle_dump built)))
    by (destruct w; simpl; apply lookup_insert_eq).
  split; [reflexivity|]. split; [exact Hentry|]. split; [now destruct w|].
  intros file2. rewrite (getDocEmbeds_cached _ _ _ _ Hentry). simpl.
  split; [reflexivity|].
  rewrite !(builder_runs_log _ [CallLoad _]), !(embed_calls_log _ [CallLoad _]).
  simpl. lia.
Qed.

(** What [getDocEmbeds] leaves of the files that were there. *)
Lemma getDocEmbeds_keeps_files (file : bytes) (filename : string) (w : World) :
  (forall path blob,
     cwd w !! path = Some blob ->
     cwd (snd (getDocEmbeds file filename w)) !! path = Some blob) /\
  (forall tmp data,
     tmpdir w !! tmp = Some data ->
     tmpdir (snd (getDocEmbeds file filename w)) !! tmp = Some data).
Proof.
  pose proof (tmp_name_fresh w) as Hfresh.
  assert (Htmp : forall tmp data,
             tmpdir w !! tmp = Some data ->
             <[fresh (dom (tmpdir w)) := file]> (tmpdir w) !! tmp = Some data).
  { intros tmp data Hd. rewrite lookup_insert_ne; [exact Hd|].
    intros <-. rewrite Hfresh in Hd. discriminate. }
  destruct (cwd w !! pkl filename) as [blob0|] eqn:Hc.
  - rewrite (getDocEmbeds_cached _ _ _ _ Hc). now destruct w.
  - assert (Hcwd : forall x path blob,
               cwd w !! path = Some blob ->
               <[pkl filename := x]> (cwd w) !! path = Some blob).
    { intros x path blob Hb. rewrite lookup_insert_ne; [exact Hb|].
      intros <-. rewrite Hc in Hb. discriminate. }
    rewrite (getDocEmbeds_uncached _ _ _ Hc), storeDocEmbeds_eq. simpl.
    destruct (load_and_split file) as [data|e].
    2:{ destruct w; simpl in *. split; [auto|exact Htmp]. }
    destruct (from_documents data) as [v|e].
    2:{ destruct w; simpl in *. split; [auto|exact Htmp]. }
    destruct (snd (pickle_dump v)).
    { destruct w; simpl in *. split; [apply Hcwd|auto]. }
    replace (cwd _ !! pkl filename) with (Some (fst (pickle_dump v)))
      by (destruct w; simpl; now rewrite lookup_insert_eq).
    destruct w; simpl in *. split; [apply Hcwd|auto].
Qed.

(** X10.  A run never removes or rewrites a file that exists: every cache
    entry and every temporary file present before a run is present after it
    with the same bytes.  Entries are never invalidated, and temporary files
    left by failed builds are never collected. *)
Theorem run_keeps_existing_files (inp : Widgets) (w : World) :
  (forall path blob,
     cwd w !! path = Some blob -> cwd (script_run inp w) !! path = Some blob) /\
  (forall tmp data,
     tmpdir w !! tmp = Some data -> tmpdir (script_run inp w) !! tmp = Some data).
Proof.
  destruct (decide (user_api_key inp = "")) as [Hkey|Hkey].
  { unfold script_run, main, bind, st_write, modify.
    rewrite bool_decide_eq_true_2 by exact Hkey. now destruct w. }
  destruct (uploaded_file inp) as [f|] eqn:Hfile.
  2:{ unfold script_run, main, bind, st_write, modify, ret.
      rewrite bool_decide_eq_false_2 by exact Hkey. rewrite Hfile. now destruct w. }
  unfold script_run. rewrite (main_eq inp f _ Hkey Hfile), try_block_eq.
  set (w0 := set_session (keys_after (reset_button inp)) _).
  destruct (getDocEmbeds_keeps_files (content f) (name f) w0) as (Hcwd & Htmp).
  assert (Hcwd0 : cwd w0 = cwd w) by (subst w0; now destruct w).
  assert (Htmp0 : tmpdir w0 = tmpdir w) by (subst w0; now destruct w).
  rewrite Hcwd0 in Hcwd. rewrite Htmp0 in Htmp.
  destruct (getDocEmbeds (content f) (name f) w0) as [[v|e] w1]; simpl in Hcwd, Htmp.
  2:{ destruct w1; simpl in *. auto. }
  cbv zeta.
  set (w2 := set_session (with_ready true) _).
  assert (Hkeep : cwd (snd (chat_block
                    {| llm := {| temperature := 0.0; model_name := MODEL inp |};
                       retriever := v |} inp (name f) w2)) = cwd w1 /\
                  tmpdir (snd (chat_block
                    {| llm := {| temperature := 0.0; model_name := MODEL inp |};
                       retriever := v |} inp (name f) w2)) = tmpdir w1).
  { apply (preserves_chat_block
             (fun w' => cwd w' = cwd w1 /\ tmpdir w' = tmpdir w1) (fun _ => True));
      auto; try (intros; now destruct w3).
    - intros filename w3 H. rewrite greeting_defaults_eq. now destruct w3.
    - intros filename w3 H. rewrite reset_eq. now destruct w3.
    - intros query answer w3 H. rewrite appends_eq.
      destruct (past (session w3)); [|assumption].
      destruct (generated (session w3)); now destruct w3. }
  destruct Hkeep as (Hkc & Hkt).
  destruct (chat_block _ inp (name f) w2) as [[[]|e] w5]; simpl in Hkc, Hkt;
    destruct w5; simpl in *; subst; auto.
Qed.

(** X11.  A build that loads and embeds, for a file name under which [open]
    can create the entry: the loader reads the uploaded bytes, the embedding
    call gets the loader's documents as returned, the temporary directory is
    as before, and of the working directory only the entry of this file name
    is written. *)
Theorem storeDocEmbeds_success_effects
    (file : bytes) (filename : string) (w : World)
    (data : list Document) (vectors : VectorStore) :
  plain_name (pkl filename) = true ->
  load_and_split file = Returned data ->
  from_documents data = Returned vectors ->
  let w' := snd (storeDocEmbeds file filename w) in
  calls w' = (calls w ++ [CallStore filename; CallLoader file;
                          CallEmbed data; CallDump])%list /\
  tmpdir w' = tmpdir w /\
  cwd w' !! pkl filename = Some (fst (pickle_dump vectors)) /\
  (forall path, path <> pkl filename -> cwd w' !! path = cwd w !! path) /\
  session w' = session w /\
  (snd (pickle_dump vectors) = None ->
   fst (storeDocEmbeds file filename w) = Returned tt).
Proof.
  intros _ Hl Hf w'. subst w'. rewrite storeDocEmbeds_eq. simpl. rewrite Hl, Hf.
  destruct w; simpl. repeat split.
  - apply lookup_insert_eq.
  - intros path Hne. now apply lookup_insert_ne.
  - now intros ->.
Qed.

(** X12.  Conversational memory: of two questions asked in a row, the chain
    is called for the second with the history that ends in the first
    question and its answer, and afterwards [history] ends in the two turns,
    in the order asked. *)
Theorem second_question_sees_first_turn
    (chain : Chain) (q1 a1 q2 a2 : string) (h : list Turn) (w : World) :
  history (session w) = Some h ->
  run_chain (llm chain) (retriever chain) q1 h = Returned a1 ->
  run_chain (llm chain) (retriever chain) q2 (h ++ [(q1, a1)]) = Returned a2 ->
  let w1 := snd (conversational_chat chain q1 w) in
  let w2 := snd (conversational_chat chain q2 w1) in
  fst (conversational_chat chain q1 w) = Returned a1 /\
  fst (conversational_chat chain q2 w1) = Returned a2 /\
  history (session w2) = Some (h ++ [(q1, a1); (q2, a2)])%list /\
  calls w2 = (calls w ++ [CallChain (llm chain) q1 h;
                          CallChain (llm chain) q2 (h ++ [(q1, a1)])])%list.
Proof.
  intros Hh H1 H2 w1 w2. subst w2 w1.
  rewrite (conversational_chat_eq chain q1 w), Hh. cbv zeta. rewrite H1.
  rewrite conversational_chat_eq.
  replace (history (session _)) with (Some (h ++ [(q1, a1)])%list)
    by (now destruct w).
  cbv zeta. rewrite H2. destruct w; simpl.
  rewrite <- !app_assoc. repeat split.
Qed.

End Cache.

Section Keys.

Lemma is_digit_pretty_N_char (d : N) : is_digit (pretty_N_char d) = true.
Proof. unfold pretty_N_char. repeat case_match; reflexivity. Qed.

Lemma all_digits_pretty_N_go (x : N) (s : string) :
  all_digits s = true -> all_digits (pretty_N_go x s) = true.
Proof.
  revert s. induction (N.lt_wf_0 x) as [x _ IH]. intros s Hs.
  destruct (decide (x = 0%N)) as [->|Hx]; [now rewrite pretty_N_go_0|].
  rewrite pretty_N_go_step by lia. apply IH.
  - apply N.div_lt; lia.
  - simpl. now rewrite is_digit_pretty_N_char.
Qed.

(** [str(i)] is made of decimal digits. *)
Lemma all_digits_pretty (i : nat) : all_digits (pretty i) = true.
Proof.
  unfold pretty, pretty_nat, pretty, pretty_N.
  case_decide; [reflexivity|]. now apply all_digits_pretty_N_go.
Qed.

Lemma all_digits_user (s : string) : all_digits (s ++ "_user") = false.
Proof.
  induction s as [|a s IH]; [reflexivity|]. simpl. rewrite IH.
  apply andb_false_r.
Qed.

Lemma digits_user_inj (s1 s2 : string) :
  all_digits s1 = true -> all_digits s2 = true ->
  s1 ++ "_user" = s2 ++ "_user" -> s1 = s2.
Proof.
  revert s2. induction s1 as [|a s1 IH]; intros [|b s2] H1 H2 Heq; simpl in *.
  - reflexivity.
  - injection Heq as <- _. discriminate.
  - injection Heq as -> _. discriminate.
  - injection Heq as -> Heq.
    apply andb_prop in H1 as [_ H1]. apply andb_prop in H2 as [_ H2].
    f_equal. now apply IH.
Qed.

(** A key of the chat display belongs to one index. *)
Lemma key_owner (i j : nat) (x : string) :
  x ∈ [pretty i ++ "_user"; pretty i] ->
  x ∈ [pretty j ++ "_user"; pretty j] ->
  i = j.
Proof.
  intros Hi Hj.
  apply elem_of_cons in Hi as [->|Hi]; [|apply list_elem_of_singleton in Hi as ->];
    (apply elem_of_cons in Hj as [Hj|Hj];
     [|apply list_elem_of_singleton in Hj]).
  - apply (inj pretty). apply digits_user_inj; auto using all_digits_pretty.
  - pose proof (all_digits_pretty j) as H. rewrite <- Hj, all_digits_user in H.
    discriminate.
  - pose proof (all_digits_pretty i) as H. rewrite Hj, all_digits_user in H.
    discriminate.
  - now apply (inj pretty).
Qed.

Lemma turn_at_keys (p g : list string) (i : nat) (x : string) :
  x ∈ key <$> turn_at p g i -> x ∈ [pretty i ++ "_user"; pretty i].
Proof.
  unfold turn_at. destruct (p !! i), (g !! i); simpl; auto;
    intros H; now apply elem_of_nil in H.
Qed.

Lemma turn_at_keys_NoDup (p g : list string) (i : nat) :
  NoDup (key <$> turn_at p g i).
Proof.
  unfold turn_at. destruct (p !! i), (g !! i); simpl; try apply NoDup_nil_2.
  apply NoDup_cons. split; [|apply NoDup_singleton].
  intros H%list_elem_of_singleton.
  pose proof (all_digits_pretty i) as Hd. rewrite <- H, all_digits_user in Hd.
  discriminate.
Qed.

Lemma display_keys_NoDup (p g : list string) (idxs : list nat) :
  NoDup idxs -> NoDup (key <$> flat_map (turn_at p g) idxs).
Proof.
  induction 1 as [|i idxs Hi _ IH]; simpl; [apply NoDup_nil_2|].
  rewrite fmap_app. apply NoDup_app. split; [apply turn_at_keys_NoDup|].
  split; [|exact IH].
  intros x Hx Hx'. apply turn_at_keys in Hx.
  apply list_elem_of_fmap in Hx' as (m & -> & Hm).
  apply list_elem_of_In, in_flat_map in Hm as (j & Hj & Hm).
  assert (Hkey : key m ∈ key <$> turn_at p g j).
  { apply list_elem_of_fmap. exists m. split; [reflexivity|].
    now apply list_elem_of_In. }
  apply turn_at_keys in Hkey.
  rewrite (key_owner i j _ Hx Hkey) in Hi. apply Hi. now apply list_elem_of_In.
Qed.

(** X13.  The chat display gives every message a key of its own: with the
    display lists paired, no two of the [message] calls of one pass of the
    display loop share a key, so the page never holds two widgets under one
    key. *)
Theorem chat_keys_are_distinct (w : World) :
  paired (session w) = true ->
  response_container w = [] ->
  NoDup (key <$> response_container (snd (render w))).
Proof.
  intros Hpaired Hempty. unfold paired in Hpaired.
  destruct (generated (session w)) as [g|] eqn:Hg.
  - destruct (past (session w)) as [p|] eqn:Hp; [|discriminate].
    apply Nat.eqb_eq in Hpaired.
    rewrite (render_eq w g p Hg Hp Hpaired).
    destruct w; simpl in *. subst. simpl.
    apply display_keys_NoDup, NoDup_seq.
  - unfold render.
    rewrite (bind_raised _ _ _ _ _ (ss_get_none "generated" generated w Hg)).
    simpl. rewrite Hempty. apply NoDup_nil_2.
Qed.

End Keys.

(** * The script on concrete inputs *)

Section Examples.
#[local] Existing Instance lenient.

(** The world [chatting] is where two runs from a first visit lead: the
    upload, then the question "hi". *)
Example chatting_is_reached :
  let w := script_run (widgets two_pages false 0.618 "hi" true)
             (script_run (widgets two_pages false 0.618 "" false) first_visit) in
  session w = session chatting /\
  cwd w !! "a.pdf.pkl" = cwd chatting !! "a.pdf.pkl" /\
  tmpdir w = tmpdir chatting.
Proof. vm_compute. repeat split. Qed.

(** C1 at a first visit: the second call finds the entry the first one wrote. *)
Lemma getDocEmbeds_twice_on_first_visit :
  (is_Some (cwd chatting !! pkl "a.pdf") /\
   builder_runs (snd (getDocEmbeds (content two_pages) "a.pdf" chatting))
   = builder_runs chatting /\
   embed_calls (snd (getDocEmbeds (content two_pages) "a.pdf" chatting))
   = embed_calls chatting) /\
  getDocEmbeds (content two_pages) "a.pdf" first_visit
  = (Returned two_pages_store,
     snd (getDocEmbeds (content two_pages) "a.pdf" first_visit)) /\
  builder_runs (snd (getDocEmbeds (content two_pages) "a.pdf" first_visit)) = 1 /\
  exists v2 w2,
    getDocEmbeds (content two_pages) "a.pdf"
      (snd (getDocEmbeds (content two_pages) "a.pdf" first_visit))
    = (Returned v2, w2) /\
    v2 = two_pages_store /\
    (forall q, similarity_search v2 q = @similarity_search lenient two_pages_store q) /\
    builder_runs w2
    = builder_runs (snd (getDocEmbeds (content two_pages) "a.pdf" first_visit)) /\
    embed_calls w2
    = embed_calls (snd (getDocEmbeds (content two_pages) "a.pdf" first_visit)).
Proof.
  assert (Hcall : getDocEmbeds (content two_pages) "a.pdf" first_visit
                  = (Returned two_pages_store,
                     snd (getDocEmbeds (content two_pages) "a.pdf" first_visit)))
    by (vm_compute; reflexivity).
  split; [|split; [exact Hcall|split; [vm_compute; reflexivity|]]].
  - assert (Hc : is_Some (cwd chatting !! pkl "a.pdf")) by (vm_compute; eauto).
    split; [exact Hc|].
    exact (proj1 (getDocEmbeds_builds_at_most_once
                    (content two_pages) "a.pdf" chatting) Hc).
  - destruct (proj2 (getDocEmbeds_builds_at_most_once
                       (content two_pages) "a.pdf" first_visit) _ _ Hcall)
      as (_ & _ & Hagain).
    exact (Hagain _ eq_refl).
Defined.

(** X14 at a first visit: what comes back is the unpickled entry. *)
Lemma getDocEmbeds_unpickles_on_first_visit :
  getDocEmbeds (content two_pages) "a.pdf" first_visit
  = (Returned two_pages_store,
     snd (getDocEmbeds (content two_pages) "a.pdf" first_visit)) /\
  (exists blob,
     cwd (snd (getDocEmbeds (content two_pages) "a.pdf" first_visit)) !! pkl "a.pdf"
     = Some blob /\
     pickle_load blob = Returned two_pages_store /\
     last (calls (snd (getDocEmbeds (content two_pages) "a.pdf" first_visit)))
     = Some (CallLoad blob)) /\
  exists data built,
    load_and_split (content two_pages) = Returned data /\
    from_documents data = Returned built /\
    snd (pickle_dump built) = None /\
    cwd (snd (getDocEmbeds (content two_pages) "a.pdf" first_visit)) !! pkl "a.pdf"
    = Some (fst (pickle_dump built)) /\
    pickle_load (fst (pickle_dump built)) = Returned two_pages_store.
Proof.
  assert (Hcall : getDocEmbeds (content two_pages) "a.pdf" first_visit
                  = (Returned two_pages_store,
                     snd (getDocEmbeds (content two_pages) "a.pdf" first_visit)))
    by (vm_compute; reflexivity).
  split; [exact Hcall|].
  destruct (getDocEmbeds_returns_unpickled_entry _ _ _ _ _ Hcall) as (Hentry & Hfresh).
  split; [exact Hentry|exact (Hfresh eq_refl)].
Defined.

(** C3 in the session [chatting]: a second question is answered. *)
Lemma conversational_chat_in_chatting :
  exists w',
    conversational_chat demo_chain "why" chatting = (Returned "You asked: why", w') /\
    session w'
    = with_history [("hi", "You asked: hi"); ("why", "You asked: why")]
        (session chatting) /\
    (exists h', history (session w') = Some h' /\
                length h' = 2 /\
                last h' = Some ("why", "You asked: why") /\
                take 1 h' = [("hi", "You asked: hi")] /\
                forall i t, [("hi", "You asked: hi")] !! i = Some t -> h' !! i = Some t).
Proof.
  exact (conversational_chat_appends_one_turn demo_chain "why" "You asked: why"
           [("hi", "You asked: hi")] chatting eq_refl eq_refl).
Defined.

(** C4 in the session [chatting]: the provider refuses the question. *)
Lemma conversational_chat_over_quota :
  let e := LibraryError "RateLimitError" "You exceeded your current quota" in
  let w' := set_calls (fun l => (l ++ [CallChain (llm demo_chain) "quota"
                                          [("hi", "You asked: hi")]])%list) chatting in
  conversational_chat demo_chain "quota" chatting = (Raised e, w') /\
  submit demo_chain "quota" chatting = (Raised e, w') /\
  (forall (before : M unit) (w0 : World),
     before w0 = (Returned tt, chatting) ->
     try_except (before ;; submit demo_chain "quota" ;; render)
                (fun e => st_write (ErrorBox ("Error: " ++ str e))) w0
     = (Returned tt,
        set_page (fun l => (l ++ [ErrorBox ("Error: " ++ str e)])%list) w')) /\
  session w' = session chatting /\
  history (session w') = Some [("hi", "You asked: hi")] /\
  cwd w' = cwd chatting /\ tmpdir w' = tmpdir chatting /\
  stdout w' = stdout chatting.
Proof.
  exact (conversational_chat_failure_keeps_history demo_chain "quota"
           [("hi", "You asked: hi")]
           (LibraryError "RateLimitError" "You exceeded your current quota")
           chatting eq_refl eq_refl).
Defined.

(** C4, the claim refuted: when the provider refuses the question, what
    [conversational_chat] raises is the provider's own [RateLimitError], not
    a [GenerationFailed] error around it, and the run shows that exception's
    text. *)
Lemma failed_ask_raises_the_providers_error :
  exists e,
    run_chain (llm demo_chain) (retriever demo_chain) "quota" [("hi", "You asked: hi")]
    = Raised e /\
    fst (conversational_chat demo_chain "quota" chatting) = Raised e /\
    class_name e = "RateLimitError" /\
    class_name e <> "GenerationFailed" /\
    page_elems (script_run (widgets two_pages false 0.618 "quota" true) chatting)
    = [FileExpander "a.pdf"; ErrorBox ("Error: " ++ str e); AboutBox].
Proof.
  exists (LibraryError "RateLimitError" "You exceeded your current quota").
  vm_compute. repeat split. discriminate.
Qed.

(** C5 in the session [chatting], in the run a click on "Reset Chat" starts. *)
Lemma reset_in_chatting :
  (forall w0, reset "a.pdf" w0 =
     (Returned tt, set_response (fun _ => []) (set_session (cleared "a.pdf") w0))) /\
  session (script_run (widgets two_pages true 0.618 "" false) chatting)
  = {| history := Some []; ready := Some true; reset_chat := Some false;
       generated := Some [greeting "a.pdf"]; past := Some [hey] |} /\
  response_container (script_run (widgets two_pages true 0.618 "" false) chatting)
  = greeting_turn "a.pdf".
Proof.
  exact (reset_leaves_only_the_greeting
           (widgets two_pages true 0.618 "" false) two_pages chatting
           two_pages_store ltac:(discriminate) eq_refl (or_introl eq_refl) eq_refl
           ltac:(vm_compute; reflexivity)).
Defined.

(** C6 at a truncated entry: the error is shown and nothing is rebuilt. *)
Lemma corrupt_entry_raises_at_truncated_pickle :
  let e := LibraryError "EOFError" "Ran out of input" in
  let inp := widgets two_pages false 0.618 "" false in
  let w' := set_calls (fun l => (l ++ [CallLoad []])%list) corrupt_cache in
  getDocEmbeds (content two_pages) "a.pdf" corrupt_cache = (Raised e, w') /\
  builder_runs w' = builder_runs corrupt_cache /\
  embed_calls w' = embed_calls corrupt_cache /\
  cwd w' = cwd corrupt_cache /\ tmpdir w' = tmpdir corrupt_cache /\
  session w' = session corrupt_cache /\
  (forall file2, fst (getDocEmbeds file2 "a.pdf" w') = Raised e) /\
  page_elems (script_run inp corrupt_cache)
  = [FileExpander "a.pdf"; ErrorBox ("Error: " ++ str e); AboutBox] /\
  response_container (script_run inp corrupt_cache) = [] /\
  cwd (script_run inp corrupt_cache) = cwd corrupt_cache /\
  builder_runs (script_run inp corrupt_cache) = builder_runs corrupt_cache /\
  embed_calls (script_run inp corrupt_cache) = embed_calls corrupt_cache /\
  session (script_run inp corrupt_cache)
  = keys_after false (session corrupt_cache).
Proof.
  exact (getDocEmbeds_corrupt_entry_raises
           (widgets two_pages false 0.618 "" false) two_pages corrupt_cache []
           (LibraryError "EOFError" "Ran out of input")
           ltac:(discriminate) eq_refl ltac:(vm_compute; reflexivity) eq_refl).
Defined.

(** C6, the claim refuted: with a truncated entry on disk [getDocEmbeds]
    raises the unpickling error, the builder has not run, the entry is still
    the truncated one, and the run shows the error; a build from the same
    upload would have succeeded. *)
Lemma corrupt_entry_is_not_rebuilt :
  fst (getDocEmbeds (content two_pages) "a.pdf" corrupt_cache)
  = Raised (LibraryError "EOFError" "Ran out of input") /\
  builder_runs (snd (getDocEmbeds (content two_pages) "a.pdf" corrupt_cache)) = 0 /\
  cwd (snd (getDocEmbeds (content two_pages) "a.pdf" corrupt_cache)) !! "a.pdf.pkl"
  = Some [] /\
  page_elems (script_run (widgets two_pages false 0.618 "" false) corrupt_cache)
  = [FileExpander "a.pdf"; ErrorBox "Error: Ran out of input"; AboutBox] /\
  builder_runs (script_run (widgets two_pages false 0.618 "" false) corrupt_cache) = 0 /\
  fst (getDocEmbeds (content two_pages) "a.pdf" first_visit)
  = Returned two_pages_store.
Proof. vm_compute. repeat split. Qed.

(** C7 for the blank page on a first visit. *)
Lemma zero_segments_with_strict_store :
  let file := content blank_page in
  let inp := widgets blank_page false 0.618 "" false in
  let w1 := snd (@storeDocEmbeds strict file "blank.pdf" first_visit) in
  @load_and_split strict file = Returned [] /\
  @from_documents strict [] = Raised IndexError /\
  fst (@storeDocEmbeds strict file "blank.pdf" first_visit) = Raised IndexError /\
  calls w1 = [CallStore "blank.pdf"; CallLoader file; CallEmbed []] /\
  cwd w1 = cwd first_visit /\
  @getDocEmbeds strict file "blank.pdf" first_visit = (Raised IndexError, w1) /\
  (forall v, fst (@getDocEmbeds strict file "blank.pdf" first_visit) <> Returned v) /\
  cwd w1 !! pkl "blank.pdf" = None /\
  page_elems (@script_run strict inp first_visit)
  = [FileExpander "blank.pdf"; ErrorBox ("Error: " ++ str IndexError); AboutBox] /\
  response_container (@script_run strict inp first_visit) = [] /\
  cwd (@script_run strict inp first_visit) = cwd first_visit /\
  session (@script_run strict inp first_visit)
  = keys_after false (session first_visit).
Proof.
  split; [reflexivity|]. split; [reflexivity|].
  destruct (@zero_segments_never_build_an_index strict (content blank_page)
              "blank.pdf" first_visit eq_refl eq_refl)
    as (Hraise & Hcalls & Hcwd & Hrest).
  destruct (Hrest eq_refl) as (Hget & Hnever & Hentry & Hrun).
  destruct (Hrun (widgets blank_page false 0.618 "" false) blank_page
              ltac:(discriminate) eq_refl eq_refl eq_refl)
    as (Hpage & Hrc & Hcwd' & Hsession).
  repeat split; assumption.
Defined.

(** C7, the claim refuted: a build from a document without segments fails
    with the [IndexError] of the store constructor, not with an
    [EmptyDocument] error, and that is the text the run shows. *)
Lemma zero_segments_raise_IndexError :
  exists e,
    @load_and_split strict (content blank_page) = Returned [] /\
    fst (@storeDocEmbeds strict (content blank_page) "blank.pdf" first_visit)
    = Raised e /\
    class_name e = "IndexError" /\
    class_name e <> "EmptyDocument" /\
    page_elems (@script_run strict (widgets blank_page false 0.618 "" false)
                  first_visit)
    = [FileExpander "blank.pdf"; ErrorBox "Error: list index out of range";
       AboutBox].
Proof.
  exists IndexError. vm_compute. repeat split. discriminate.
Qed.

(** C9 for an unreadable upload: the temporary file stays. *)
Lemma temp_file_left_by_empty_upload :
  let e := LibraryError "EmptyFileError" "Cannot read an empty file" in
  let w' := snd (storeDocEmbeds [] "empty.pdf" first_visit) in
  load_and_split [] = Raised e /\
  fst (storeDocEmbeds [] "empty.pdf" first_visit) = Raised e /\
  tmpdir first_visit !! 0 = None /\
  tmpdir w' !! 0 = Some [] /\
  tmpdir w' = <[0 := []]> (tmpdir first_visit) /\
  cwd w' = cwd first_visit.
Proof.
  split; [reflexivity|].
  exact (storeDocEmbeds_temp_file_left_on_error [] "empty.pdf" first_visit
           (LibraryError "EmptyFileError" "Cannot read an empty file")
           (or_introl eq_refl)).
Defined.

(** C8 with the slider at its default, 0.618: the model is built and called
    with temperature 0.0. *)
Lemma slider_at_default_model_at_zero :
  Qeq_bool 0.618 0.0 = false /\
  calls (script_run (widgets two_pages false 0.618 "why" true) chatting)
  = [ CallLoad [Byte.x80; Byte.x41; Byte.x42];
      CallChatOpenAI {| temperature := 0.0; model_name := "gpt-3.5-turbo" |};
      CallChain {| temperature := 0.0; model_name := "gpt-3.5-turbo" |} "why"
        [("hi", "You asked: hi")] ] /\
  forallb cold
    (calls (script_run (with_TEMPERATURE 0.618 (widgets two_pages false 0.0 "why" true))
              (set_calls (fun _ => []) chatting))) = true.
Proof.
  split; [reflexivity|]. split; [vm_compute; reflexivity|].
  exact (proj2 (slider_temperature_never_reaches_the_model
                  (widgets two_pages false 0.0 "why" true) 0.618 chatting)).
Defined.

(** A whole run of the script from [chatting] with a refused question: the
    session is as it was, and the page shows the error. *)
Example run_over_quota :
  session (script_run (widgets two_pages false 0.618 "quota" true) chatting)
  = session chatting /\
  page_elems (script_run (widgets two_pages false 0.618 "quota" true) chatting)
  = [FileExpander "a.pdf"; ErrorBox "Error: You exceeded your current quota";
     AboutBox].
Proof. vm_compute. split; reflexivity. Qed.

(** C10 in the session [chatting]. *)
Lemma display_lists_paired_in_chatting :
  paired (session chatting) = true /\
  paired (session (script_run (widgets two_pages false 0.618 "why" true) chatting))
  = true /\
  fst (render chatting) <> Raised IndexError.
Proof.
  assert (H : paired (session chatting) = true) by reflexivity.
  split; [exact H|].
  destruct (display_lists_stay_paired demo_chain
              (widgets two_pages false 0.618 "why" true) "a.pdf" "why" chatting H)
    as (_ & _ & _ & _ & Hrun & _ & Hrender).
  split; [exact Hrun|exact Hrender].
Defined.

End Examples.

(** * The further properties on concrete inputs *)

Section MoreExamples.
#[local] Existing Instance lenient.

(** X2 in the session [chatting], with the upload taken away. *)
Lemma run_without_upload_in_chatting :
  let inp := {| user_api_key := "sk-test"; uploaded_file := None;
                reset_button := false; MODEL := "gpt-3.5-turbo";
                TEMPERATURE := 0.618; user_input := ""; submit_button := false |} in
  session (script_run inp chatting) = session chatting /\
  cwd (script_run inp chatting) = cwd chatting /\
  tmpdir (script_run inp chatting) = tmpdir chatting /\
  calls (script_run inp chatting) = calls chatting /\
  stdout (script_run inp chatting) = stdout chatting /\
  response_container (script_run inp chatting) = [].
Proof.
  exact (run_without_key_or_upload_is_inert
           {| user_api_key := "sk-test"; uploaded_file := None;
              reset_button := false; MODEL := "gpt-3.5-turbo";
              TEMPERATURE := 0.618; user_input := ""; submit_button := false |}
           chatting (or_intror eq_refl)).
Defined.

(** X3 with the environment variable set to the empty string and a key
    typed into the sidebar. *)
Lemma typed_key_with_empty_environment :
  let inp := widgets two_pages false 0.618 "" false in
  user_api_key inp = fst (load_user_api_key (Some "") "sk-test") /\
  (Some "" = None \/ Some "" = Some "" ->
   user_api_key inp = "sk-test" /\
   snd (load_user_api_key (Some "") "sk-test") = None) /\
  (page_elems (script_run inp first_visit) = [Markdown enter_key_html; AboutBox]
   <-> (Some "" = None \/ Some "" = Some "") /\ "sk-test" = "").
Proof.
  split; [reflexivity|].
  exact (proj2 (key_prompt_iff_no_key_anywhere (Some "") "sk-test"
                  (widgets two_pages false 0.618 "" false) first_visit eq_refl)).
Defined.

(** X4 in the session [chatting]: the question "why" is answered. *)
Lemma answered_query_in_chatting :
  let inp := widgets two_pages false 0.618 "why" true in
  let chat_model := {| temperature := 0.0; model_name := "gpt-3.5-turbo" |} in
  let h := [("hi", "You asked: hi")] in
  history (session (script_run inp chatting))
  = Some [("hi", "You asked: hi"); ("why", "You asked: why")] /\
  past (session (script_run inp chatting)) = Some [hey; "hi"; "why"] /\
  generated (session (script_run inp chatting))
  = Some [greeting "a.pdf"; "You asked: hi"; "You asked: why"] /\
  last (calls (script_run inp chatting)) = Some (CallChain chat_model "why" h) /\
  stdout (script_run inp chatting)
  = [PStr "Log: "; PHistory [("hi", "You asked: hi"); ("why", "You asked: why")]] /\
  (2 = 2 ->
   page_elems (script_run inp chatting) = [FileExpander "a.pdf"; AboutBox] /\
   response_container (script_run inp chatting)
   = flat_map (turn_at [hey; "hi"; "why"]
                 [greeting "a.pdf"; "You asked: hi"; "You asked: why"])
       (seq 0 3)).
Proof.
  exact (answered_query_run (widgets two_pages false 0.618 "why" true) two_pages
           chatting two_pages_store "You asked: why"
           ltac:(discriminate) eq_refl ltac:(vm_compute; reflexivity) eq_refl
           ltac:(discriminate) eq_refl eq_refl eq_refl).
Defined.

(** X5 in the session [chatting], after an upload under another name: the
    conversation about the first file is kept and shown. *)
Lemma other_upload_in_chatting :
  let other := {| name := "b.pdf"; content := [Byte.x43] |} in
  let inp := widgets other false 0.618 "" false in
  history (session (script_run inp chatting)) = Some [("hi", "You asked: hi")] /\
  past (session (script_run inp chatting)) = Some [hey; "hi"] /\
  generated (session (script_run inp chatting))
  = Some [greeting "a.pdf"; "You asked: hi"] /\
  ready (session (script_run inp chatting)) = Some true /\
  stdout (script_run inp chatting) = [] /\
  page_elems (script_run inp chatting) = [FileExpander "b.pdf"; AboutBox] /\
  response_container (script_run inp chatting)
  = flat_map (turn_at [hey; "hi"] [greeting "a.pdf"; "You asked: hi"]) (seq 0 2).
Proof.
  exact (idle_run_shows_the_conversation
           (widgets {| name := "b.pdf"; content := [Byte.x43] |} false 0.618 "" false)
           {| name := "b.pdf"; content := [Byte.x43] |} chatting
           ([Byte.x43] : @VectorStore lenient)
           ltac:(discriminate) eq_refl ltac:(vm_compute; reflexivity) eq_refl
           eq_refl eq_refl eq_refl).
Defined.

(** X6 for an unreadable upload on a first visit, with "Reset Chat" clicked. *)
Lemma failed_indexing_on_first_visit :
  let empty := {| name := "empty.pdf"; content := [] |} in
  let inp := widgets empty true 0.618 "" false in
  let e := LibraryError "EmptyFileError" "Cannot read an empty file" in
  page_elems (script_run inp first_visit)
  = [FileExpander "empty.pdf"; ErrorBox ("Error: " ++ str e); AboutBox] /\
  response_container (script_run inp first_visit) = [] /\
  stdout (script_run inp first_visit) = [] /\
  ready (session (script_run inp first_visit)) = Some false /\
  history (session (script_run inp first_visit)) = Some [] /\
  past (session (script_run inp first_visit)) = None /\
  generated (session (script_run inp first_visit)) = None /\
  (true = true -> reset_chat (session (script_run inp first_visit)) = Some true).
Proof.
  exact (failed_indexing_run
           (widgets {| name := "empty.pdf"; content := [] |} true 0.618 "" false)
           {| name := "empty.pdf"; content := [] |} first_visit
           (LibraryError "EmptyFileError" "Cannot read an empty file")
           ltac:(discriminate) eq_refl ltac:(vm_compute; reflexivity)).
Defined.


(** X8 on a first visit: other bytes under the same name get the first
    file's store. *)
Lemma second_upload_gets_first_store :
  exists blob,
    cwd (snd (getDocEmbeds (content two_pages) "a.pdf" first_visit)) !! pkl "a.pdf"
    = Some blob /\
    getDocEmbeds [Byte.x43] "a.pdf"
      (snd (getDocEmbeds (content two_pages) "a.pdf" first_visit))
    = (Returned two_pages_store,
       set_calls (fun l => (l ++ [CallLoad blob])%list)
         (snd (getDocEmbeds (content two_pages) "a.pdf" first_visit))) /\
    cwd (snd (getDocEmbeds [Byte.x43] "a.pdf"
                (snd (getDocEmbeds (content two_pages) "a.pdf" first_visit))))
    = cwd (snd (getDocEmbeds (content two_pages) "a.pdf" first_visit)) /\
    tmpdir (snd (getDocEmbeds [Byte.x43] "a.pdf"
                   (snd (getDocEmbeds (content two_pages) "a.pdf" first_visit))))
    = tmpdir (snd (getDocEmbeds (content two_pages) "a.pdf" first_visit)) /\
    calls (snd (getDocEmbeds [Byte.x43] "a.pdf"
                  (snd (getDocEmbeds (content two_pages) "a.pdf" first_visit))))
    = (calls (snd (getDocEmbeds (content two_pages) "a.pdf" first_visit))
       ++ [CallLoad blob])%list.
Proof.
  exact (cached_store_ignores_the_upload (content two_pages) [Byte.x43] "a.pdf"
           first_visit (snd (getDocEmbeds (content two_pages) "a.pdf" first_visit))
           two_pages_store ltac:(vm_compute; reflexivity) _ eq_refl).
Defined.

(** X9 with a pickler that stops after the protocol byte. *)
Lemma partial_entry_after_failed_dump :
  let e := LibraryError "PicklingError" "cannot pickle the index" in
  let w1 := snd (@getDocEmbeds flaky_pickle (content two_pages) "a.pdf" first_visit) in
  fst (@getDocEmbeds flaky_pickle (content two_pages) "a.pdf" first_visit) = Raised e /\
  cwd w1 !! pkl "a.pdf" = Some [Byte.x80] /\
  tmpdir w1 = tmpdir first_visit /\
  forall file2,
    fst (@getDocEmbeds flaky_pickle file2 "a.pdf" w1)
    = @pickle_load flaky_pickle [Byte.x80] /\
    builder_runs (snd (@getDocEmbeds flaky_pickle file2 "a.pdf" w1)) = builder_runs w1 /\
    embed_calls (snd (@getDocEmbeds flaky_pickle file2 "a.pdf" w1)) = embed_calls w1.
Proof.
  exact (@failed_dump_leaves_a_partial_entry flaky_pickle (content two_pages) "a.pdf"
           first_visit (stub_pages (content two_pages)) two_pages_store
           (LibraryError "PicklingError" "cannot pickle the index")
           eq_refl eq_refl eq_refl eq_refl).
Defined.

(** X10 in the session [chatting], for an upload under another name. *)
Lemma entry_kept_by_other_upload :
  cwd chatting !! "a.pdf.pkl" = Some [Byte.x80; Byte.x41; Byte.x42] /\
  cwd (script_run (widgets blank_page false 0.618 "" false) chatting) !! "a.pdf.pkl"
  = Some [Byte.x80; Byte.x41; Byte.x42].
Proof.
  assert (H : cwd chatting !! "a.pdf.pkl" = Some [Byte.x80; Byte.x41; Byte.x42])
    by (vm_compute; reflexivity).
  split; [exact H|].
  exact (proj1 (run_keeps_existing_files
                  (widgets blank_page false 0.618 "" false) chatting) _ _ H).
Defined.

(** X11 for the two-page upload on a first visit. *)
Lemma store_two_pages_on_first_visit :
  plain_name (pkl "a.pdf") = true /\
  let w' := snd (storeDocEmbeds (content two_pages) "a.pdf" first_visit) in
  calls w' = [CallStore "a.pdf"; CallLoader (content two_pages);
              CallEmbed (stub_pages (content two_pages)); CallDump] /\
  tmpdir w' = tmpdir first_visit /\
  cwd w' !! pkl "a.pdf" = Some [Byte.x80; Byte.x41; Byte.x42] /\
  (forall path, path <> pkl "a.pdf" -> cwd w' !! path = cwd first_visit !! path) /\
  session w' = session first_visit /\
  (@None Exception = None ->
   fst (storeDocEmbeds (content two_pages) "a.pdf" first_visit) = Returned tt).
Proof.
  split; [reflexivity|].
  exact (storeDocEmbeds_success_effects (content two_pages) "a.pdf" first_visit
           (stub_pages (content two_pages)) two_pages_store eq_refl eq_refl eq_refl).
Defined.

(** X12 in the session [chatting]: "why", then "how". *)
Lemma two_questions_in_chatting :
  let w1 := snd (conversational_chat demo_chain "why" chatting) in
  let w2 := snd (conversational_chat demo_chain "how" w1) in
  fst (conversational_chat demo_chain "why" chatting) = Returned "You asked: why" /\
  fst (conversational_chat demo_chain "how" w1) = Returned "You asked: how" /\
  history (session w2)
  = Some [("hi", "You asked: hi"); ("why", "You asked: why");
          ("how", "You asked: how")] /\
  calls w2
  = [CallChain (llm demo_chain) "why" [("hi", "You asked: hi")];
     CallChain (llm demo_chain) "how"
       [("hi", "You asked: hi"); ("why", "You asked: why")]].
Proof.
  exact (second_question_sees_first_turn demo_chain "why" "You asked: why"
           "how" "You asked: how" [("hi", "You asked: hi")] chatting
           eq_refl eq_refl eq_refl).
Defined.

(** X13 in the session [chatting]. *)
Lemma chat_keys_distinct_in_chatting :
  NoDup (key <$> response_container (snd (render chatting))).
Proof.
  exact (chat_keys_are_distinct chatting eq_refl eq_refl).
Defined.

End MoreExamples.
